(** * HomeNest API server: a shallow embedding of [index.js]

    The server is an Express application over a MongoDB database with three
    collections (properties, reviews, testimonials) and a Firebase token
    guard.  Each route handler of [index.js] is embedded as a function from
    the world (the database and the record of store calls made so far) to a
    response and a new world, written in a small state-and-exception monad
    so that it reads like its source.  What the handlers call but do not
    define is given beside them: the BSON [ObjectId] and the collection
    methods of the MongoDB driver by executable models, the token verifier,
    the clock and the store's sort order by an environment record.

    The file has three parts: the program, the vocabulary of the
    statements with sample data, and the statements with their proofs. *)

From stdpp Require Import base option list sorting gmap strings fin_maps.
From Stdlib Require Import ZArith Ascii DecimalString.

Set Warnings "-register-all,-notation-for-abbreviation".
Set Default Proof Using "Type".
Local Open Scope string_scope.
Local Open Scope list_scope.
Local Open Scope Z_scope.

(** ** Errors

    What a [throw] carries; handlers only ever read [error.message]. *)

Inductive Error : Type :=
| BSONError (msg : string)
| TypeError (msg : string)
| MongoServerError (msg : string).

Definition message (error : Error) : string :=
  match error with
  | BSONError msg | TypeError msg | MongoServerError msg => msg
  end.

Inductive result (A : Type) : Type :=
| Ok (a : A)
| Throw (error : Error).
Arguments Ok {A} a.
Arguments Throw {A} error.

(** ** BSON object identifiers

    [ObjectId] comes from the [bson] library behind the driver.  An
    identifier is twelve bytes; it is represented by its canonical
    rendering, the 24 lower-case hexadecimal digits that [toString] prints.
    For a string argument the library (from its version 6 on) accepts
    exactly the strings of 24 hexadecimal digits, in either case:
    [isValid] answers whether the constructor would succeed, and the
    constructor throws a [BSONError] on every other string. *)

Module ObjectId.

Record t : Type := make { toHexString : string }.

Global Instance eq_dec : EqDecision t.
Proof. solve_decision. Defined.

Definition is_hex_digit (c : ascii) : bool :=
  let n := nat_of_ascii c in
  ((48 <=? n) && (n <=? 57) || (97 <=? n) && (n <=? 102)
   || (65 <=? n) && (n <=? 70))%nat.

Definition lower_hex (c : ascii) : ascii :=
  let n := nat_of_ascii c in
  if ((65 <=? n) && (n <=? 70))%nat then ascii_of_nat (n + 32) else c.

Fixpoint all_hex (s : string) : bool :=
  match s with
  | EmptyString => true
  | String c s' => is_hex_digit c && all_hex s'
  end.

Fixpoint lower (s : string) : string :=
  match s with
  | EmptyString => EmptyString
  | String c s' => String (lower_hex c) (lower s')
  end.

(** [ObjectId.isValid(id)] for a string [id]. *)
Definition isValid (id : string) : bool :=
  bool_decide (String.length id = 24%nat) && all_hex id.

Definition invalid_input : string :=
  "input must be a 24 character hex string, 12 byte Uint8Array, or an integer".

Definition invalid_id_property : string :=
  "Argument passed in must have an id that is of type string or Buffer".

Definition unaccepted_type : string :=
  "Argument passed in does not match the accepted types".

(** [new ObjectId(id)] for a string [id]. *)
Definition new (id : string) : result t :=
  if isValid id then Ok (make (lower id)) else Throw (BSONError invalid_input).

Definition toString (o : t) : string := toHexString o.

End ObjectId.

(** ** JavaScript values

    JSON data plus object identifiers.  [undefined] is not a constructor: a
    property read is an [option value], with [None] for [undefined].
    Numbers are carried as integers (no handler does arithmetic on them). *)

Inductive value : Type :=
| VNull
| VBool (b : bool)
| VNum (n : Z)
| VStr (s : string)
| VOid (o : ObjectId.t)
| VArr (items : list value)
| VObj (fields : gmap string value).

(** A JavaScript object, and a stored document, is a finite map from
    property names to values. *)
Notation obj := (gmap string value) (only parsing).

Global Instance value_eq_dec : EqDecision value.
Proof.
  refine (fix go (a b : value) {struct a} : Decision (a = b) :=
    let _ : EqDecision value := @go in
    match a, b with
    | VNull, VNull => left _
    | VBool x, VBool y => cast_if (decide (x = y))
    | VNum x, VNum y => cast_if (decide (x = y))
    | VStr x, VStr y => cast_if (decide (x = y))
    | VOid x, VOid y => cast_if (decide (x = y))
    | VArr x, VArr y => cast_if (decide (x = y))
    | VObj x, VObj y => cast_if (decide (x = y))
    | _, _ => right _
    end); abstract congruence.
Defined.

(** Truthiness, as [!x], [if (x)] and [x || y] read it. *)
Definition truthy (v : option value) : bool :=
  match v with
  | None | Some VNull => false
  | Some (VBool b) => b
  | Some (VNum n) => negb (n =? 0)
  | Some (VStr s) => negb (bool_decide (s = ""))
  | Some (VOid _) | Some (VArr _) | Some (VObj _) => true
  end.

(** [x || d] where [d] is a value. *)
Definition or_else (x : option value) (d : value) : value :=
  match x with
  | Some v => if truthy x then v else d
  | None => d
  end.

(** The driver serialises a property holding [undefined] as [null]. *)
Definition serialize (x : option value) : value := default VNull x.

(** [x == null] negated: neither [undefined] nor [null]. *)
Definition truthy_id (x : option value) : bool :=
  match x with
  | None | Some VNull => false
  | Some _ => true
  end.

(** [String(v)], used for [v.toString()] on a non-null value. *)
Fixpoint js_String (v : value) : string :=
  match v with
  | VNull => "null"
  | VBool true => "true"
  | VBool false => "false"
  | VNum n => NilZero.string_of_int (Z.to_int n)
  | VStr s => s
  | VOid o => ObjectId.toString o
  | VArr items =>
      (fix join (l : list value) : string :=
         match l with
         | [] => ""
         | [x] => match x with VNull => "" | _ => js_String x end
         | x :: rest =>
             (match x with VNull => "" | _ => js_String x end) +:+ "," +:+ join rest
         end) items
  | VObj _ => "[object Object]"
  end.

(** [x.toString()]: a [TypeError] on [undefined] and [null]. *)
Definition toString (x : option value) : result string :=
  match x with
  | None => Throw (TypeError "Cannot read properties of undefined (reading 'toString')")
  | Some VNull => Throw (TypeError "Cannot read properties of null (reading 'toString')")
  | Some v => Ok (js_String v)
  end.

(** [s.split(sep)] for a non-empty separator: cut at every occurrence of
    [sep], scanning from the left; [skip] counts the characters of a
    separator still to be dropped and [cur] is the piece being read. *)
Fixpoint split_go (sep : string) (skip : nat) (cur : string) (s : string)
  : list string :=
  match skip with
  | S k =>
      match s with
      | EmptyString => [cur]
      | String _ s' => split_go sep k cur s'
      end
  | O =>
      match s with
      | EmptyString => [cur]
      | String c s' =>
          if String.prefix sep s
          then cur :: split_go sep (String.length sep - 1)%nat "" s'
          else split_go sep O (cur +:+ String c "") s'
      end
  end.

Definition split (sep s : string) : list string := split_go sep O "" s.

(** ** The document store

    The database [HomeNest] holds three collections.  A collection keeps its
    documents in insertion order.  The model covers what the handlers use of
    the driver: filters made of equalities and of one [$in], [$set] updates,
    and the driver's assignment of [_id] on insert.  A filter compares
    values by equality, a missing field counting as [null]; the store's
    other features (query operators inside a compared value, dotted names
    inside a [$set], array traversal) are outside the model. *)

Inductive Collection : Type :=
| propertiesCollection
| reviewsCollection
| testimonialsCollection.

Global Instance Collection_eq_dec : EqDecision Collection.
Proof. solve_decision. Defined.

Record Db : Type := mkDb {
  properties : list obj;
  reviews : list obj;
  testimonials : list obj
}.

Definition documents (c : Collection) (db : Db) : list obj :=
  match c with
  | propertiesCollection => properties db
  | reviewsCollection => reviews db
  | testimonialsCollection => testimonials db
  end.

Definition with_documents (c : Collection) (l : list obj) (db : Db) : Db :=
  match c with
  | propertiesCollection => mkDb l (reviews db) (testimonials db)
  | reviewsCollection => mkDb (properties db) l (testimonials db)
  | testimonialsCollection => mkDb (properties db) (reviews db) l
  end.

(** One entry of a filter document: [{ "a.b": v }] or [{ a: { $in: vs } }]. *)
Inductive Cond : Type :=
| Equals (path : list string) (v : value)
| IsIn (path : list string) (vs : list value).

Definition Filter : Type := list Cond.

Fixpoint resolve (path : list string) (v : value) : option value :=
  match path with
  | [] => Some v
  | k :: rest =>
      match v with
      | VObj o => o !! k ≫= resolve rest
      | _ => None
      end
  end.

Definition holds (c : Cond) (d : obj) : bool :=
  match c with
  | Equals path v => bool_decide (serialize (resolve path (VObj d)) = v)
  | IsIn path vs => bool_decide (serialize (resolve path (VObj d)) ∈ vs)
  end.

Definition matches (q : Filter) (d : obj) : bool := forallb (λ c, holds c d) q.

(** The store calls a handler makes, in order. *)
Inductive Call : Type :=
| call_find (c : Collection) (q : Filter) (sort_desc : option string)
| call_findOne (c : Collection) (q : Filter)
| call_insertOne (c : Collection) (d : obj)
| call_updateOne (c : Collection) (q : Filter) (set : obj)
| call_deleteOne (c : Collection) (q : Filter).

Record World : Type := mkWorld {
  db : Db;
  calls : list Call
}.

(** What a request finds outside the program: the token verifier
    ([admin.auth().verifyIdToken]), the clock ([new Date().toISOString()]),
    the identifier the driver generates for a document inserted without
    one, and the store's ordering of values, used by [sort]. *)
Record Env : Type := mkEnv {
  verifyIdToken : string → result value;
  toISOString : string;
  generated : ObjectId.t;
  bson_le : value → value → bool
}.

(** ** Handler computations: state over [World], with exceptions *)

Definition M (A : Type) : Type := World → result A * World.

Global Instance M_ret : MRet M := λ A a w, (Ok a, w).
Global Instance M_bind : MBind M := λ A B f m w,
  match m w with
  | (Ok a, w') => f a w'
  | (Throw e, w') => (Throw e, w')
  end.

Definition throw {A} (e : Error) : M A := λ w, (Throw e, w).
Definition lift {A} (r : result A) : M A := λ w, (r, w).
Definition record (c : Call) : M () := λ w, (Ok (), mkWorld (db w) (calls w ++ [c])).
Definition read (c : Collection) : M (list obj) := λ w, (Ok (documents c (db w)), w).
Definition write (c : Collection) (l : list obj) : M () :=
  λ w, (Ok (), mkWorld (with_documents c l (db w)) (calls w)).

(** *** Collection methods *)

Definition by_field_desc (env : Env) (field : string) (d1 d2 : obj) : Prop :=
  bson_le env (serialize (d2 !! field)) (serialize (d1 !! field)) = true.

Global Instance by_field_desc_dec env field d1 d2 :
  Decision (by_field_desc env field d1 d2).
Proof. unfold by_field_desc. apply _. Defined.

(** [c.find(q).toArray()] *)
Definition find (c : Collection) (q : Filter) : M (list obj) :=
  record (call_find c q None);;
  l ← read c;
  mret (List.filter (matches q) l).

(** [c.find(q).sort({ field: -1 }).toArray()] *)
Definition find_sorted (env : Env) (c : Collection) (q : Filter) (field : string)
  : M (list obj) :=
  record (call_find c q (Some field));;
  l ← read c;
  mret (merge_sort (by_field_desc env field) (List.filter (matches q) l)).

(** [c.findOne(q)]: the first match, or [null]. *)
Definition findOne (c : Collection) (q : Filter) : M (option obj) :=
  record (call_findOne c q);;
  l ← read c;
  mret (List.find (matches q) l).

Definition duplicate_key : string := "E11000 duplicate key error".

(** [c.insertOne(d)]: the driver fills in [_id] when it is missing or null;
    the store refuses an [_id] the collection already has.  The result is
    [{ acknowledged, insertedId }]. *)
Definition insertOne (env : Env) (c : Collection) (d : obj) : M obj :=
  let d' := if truthy_id (d !! "_id") then d else <["_id" := VOid (generated env)]> d in
  record (call_insertOne c d);;
  l ← read c;
  if existsb (λ x, bool_decide (x !! "_id" = d' !! "_id")) l
  then throw (MongoServerError duplicate_key)
  else
    write c (l ++ [d']);;
    mret (<["acknowledged" := VBool true]>
            (<["insertedId" := serialize (d' !! "_id")]> ∅)).

Fixpoint update_first (p : obj → bool) (f : obj → obj) (l : list obj) : list obj :=
  match l with
  | [] => []
  | d :: l' => if p d then f d :: l' else d :: update_first p f l'
  end.

Fixpoint delete_first (p : obj → bool) (l : list obj) : list obj :=
  match l with
  | [] => []
  | d :: l' => if p d then l' else d :: delete_first p l'
  end.

Definition count_first (p : obj → bool) (l : list obj) : Z :=
  if existsb p l then 1 else 0.

(** [c.updateOne(q, { $set: set })]: merges [set] into the first match;
    the result's [matchedCount]. *)
Definition updateOne (c : Collection) (q : Filter) (set : obj) : M Z :=
  record (call_updateOne c q set);;
  l ← read c;
  write c (update_first (matches q) (λ d, set ∪ d) l);;
  mret (count_first (matches q) l).

(** [c.deleteOne(q)]: removes the first match; the result's [deletedCount]. *)
Definition deleteOne (c : Collection) (q : Filter) : M Z :=
  record (call_deleteOne c q);;
  l ← read c;
  write c (delete_first (matches q) l);;
  mret (count_first (matches q) l).

(** [new ObjectId(inputId)] for a stored value: a string goes through
    [ObjectId.new]; [undefined], [null] and a number make the constructor
    generate an identifier; an object is read through its [id] property. *)
Definition new_ObjectId (env : Env) (inputId : option value) : result ObjectId.t :=
  match inputId with
  | None | Some VNull | Some (VNum _) => Ok (generated env)
  | Some (VStr s) => ObjectId.new s
  | Some (VOid o) => Ok o
  | Some (VObj o) =>
      match o !! "id" with
      | Some (VStr s) => ObjectId.new s
      | Some _ => Throw (BSONError ObjectId.invalid_id_property)
      | None => Throw (BSONError ObjectId.unaccepted_type)
      end
  | Some (VBool _) | Some (VArr _) => Throw (BSONError ObjectId.unaccepted_type)
  end.

(** [array.map(f)] and [array.find(p)] with callbacks that may throw. *)
Fixpoint array_map {A B} (f : A → result B) (l : list A) : result (list B) :=
  match l with
  | [] => Ok []
  | x :: l' =>
      match f x with
      | Throw e => Throw e
      | Ok y =>
          match array_map f l' with
          | Throw e => Throw e
          | Ok ys => Ok (y :: ys)
          end
      end
  end.

Fixpoint array_find {A} (p : A → result bool) (l : list A) : result (option A) :=
  match l with
  | [] => Ok None
  | x :: l' =>
      match p x with
      | Throw e => Throw e
      | Ok true => Ok (Some x)
      | Ok false => array_find p l'
      end
  end.

(** [Promise.all(ps)] over async callbacks already started in order: every
    callback runs (each up to its own throw), and the first rejection, by
    position, rejects the whole. *)
Fixpoint Promise_all {A} (ps : list (M A)) : M (list A) := λ w,
  match ps with
  | [] => (Ok [], w)
  | p :: ps' =>
      let '(r, w1) := p w in
      let '(rs, w2) := Promise_all ps' w1 in
      (match r, rs with
       | Throw e, _ => Throw e
       | Ok _, Throw e => Throw e
       | Ok a, Ok l => Ok (a :: l)
       end, w2)
  end.

(** ** Requests and responses *)

Inductive Route : Type :=
| GET_properties
| GET_properties_id (id : string)
| GET_my_properties (email : string)
| POST_properties
| PUT_properties_id (id : string)
| DELETE_properties_id (id : string)
| GET_my_property_ratings (email : string)
| GET_my_ratings (email : string)
| GET_properties_id_reviews (id : string)
| POST_properties_id_reviews (id : string)
| PUT_reviews_id (id : string)
| DELETE_reviews_id (id : string)
| GET_testimonials
| GET_testimonials_user (email : string)
| POST_testimonials
| PUT_testimonials_id (id : string)
| DELETE_testimonials_id (id : string)
| GET_root.

(** A routed request: the matched route with its path parameters, the
    [authorization] header, the body as [express.json()] parsed it (an
    object) and [req.user]. *)
Record Request : Type := mkRequest {
  route : Route;
  authorization : option string;
  body : obj;
  user : option value
}.

Record Response : Type := mkResponse {
  status : Z;
  payload : value
}.

(** [res.status(code).json(o)], [res.json(o)] and [res.send(v)]. *)
Definition json (code : Z) (o : obj) : Response := mkResponse code (VObj o).
Definition send (v : value) : Response := mkResponse 200 v.

Definition object (l : list (string * value)) : obj := list_to_map l.

Definition Handler : Type := World → Response * World.

(** [try { ... } catch (error) { res.status(500).json(...) }] *)
Definition try_catch (m : M Response) (h : Error → Response) : Handler := λ w,
  match m w with
  | (Ok r, w') => (r, w')
  | (Throw error, w') => (h error, w')
  end.

Definition failed (what : string) (error : Error) : Response :=
  json 500 (object [("message", VStr what); ("error", VStr (message error))]).

Definition failed_error (error : Error) : Response :=
  json 500 (object [("error", VStr (message error))]).

(** ** The token guard *)

(** [req.headers.authorization?.split("Bearer ")[1]] *)
Definition bearer (authorization : option string) : option string :=
  h ← authorization; split "Bearer " h !! 1%nat.

Definition with_user (decodedToken : value) (req : Request) : Request :=
  mkRequest (route req) (authorization req) (body req) (Some decodedToken).

Definition verifyToken (env : Env) (next : Request → Handler) (req : Request)
  : Handler := λ w,
  match bearer (authorization req) with
  | None | Some "" =>
      (json 401 (object [("message", VStr "No token provided")]), w)
  | Some token =>
      match verifyIdToken env token with
      | Ok decodedToken => next (with_user decodedToken req) w
      | Throw error =>
          (json 401 (object [("message", VStr "Invalid token");
                             ("error", VStr (message error))]), w)
      end
  end.

(** ** Property routes *)

Definition by_id (oid : ObjectId.t) : Filter := [Equals ["_id"] (VOid oid)].

(** [app.get("/properties", ...)] *)
Definition get_properties : Handler :=
  try_catch
    (result ← find propertiesCollection [];
     mret (send (VArr (VObj <$> result))))
    (failed "Failed to fetch properties").

(** [app.get("/properties/:id", ...)] *)
Definition get_properties_id (id : string) : Handler :=
  try_catch
    (if negb (ObjectId.isValid id)
     then mret (json 400 (object [("message", VStr "Invalid property ID")]))
     else
       oid ← lift (ObjectId.new id);
       result ← findOne propertiesCollection (by_id oid);
       match result with
       | None => mret (json 404 (object [("message", VStr "Property not found")]))
       | Some d => mret (send (VObj d))
       end)
    (failed "Failed to fetch property").

(** [app.get("/my-properties/:email", verifyToken, ...)] *)
Definition get_my_properties (email : string) : Handler :=
  try_catch
    (result ← find propertiesCollection [Equals ["posted_by"; "email"] (VStr email)];
     mret (send (VArr (VObj <$> result))))
    (failed "Failed to fetch user properties").

(** [app.post("/properties", verifyToken, ...)] *)
Definition post_properties (env : Env) (req : Request) : Handler :=
  try_catch
    (let newProperty := body req in
     result ← insertOne env propertiesCollection newProperty;
     mret (json 201 (object [("message", VStr "Property created successfully");
                             ("insertedId", serialize (result !! "insertedId"))])))
    (failed "Failed to create property").

(** [app.put("/properties/:id", verifyToken, ...)] *)
Definition put_properties_id (id : string) (req : Request) : Handler :=
  try_catch
    (let updatedProperty := body req in
     if negb (ObjectId.isValid id)
     then mret (json 400 (object [("message", VStr "Invalid property ID")]))
     else
       let updatedProperty := delete "_id" updatedProperty in
       oid ← lift (ObjectId.new id);
       matchedCount ← updateOne propertiesCollection (by_id oid) updatedProperty;
       if bool_decide (matchedCount = 0)
       then mret (json 404 (object [("message", VStr "Property not found")]))
       else mret (json 200 (object [("message", VStr "Property updated successfully")])))
    (failed "Failed to update property").

(** [app.delete("/properties/:id", verifyToken, ...)] *)
Definition delete_properties_id (id : string) : Handler :=
  try_catch
    (if negb (ObjectId.isValid id)
     then mret (json 400 (object [("message", VStr "Invalid property ID")]))
     else
       oid ← lift (ObjectId.new id);
       deletedCount ← deleteOne propertiesCollection (by_id oid);
       if bool_decide (deletedCount = 0)
       then mret (json 404 (object [("message", VStr "Property not found")]))
       else mret (json 200 (object [("message", VStr "Property deleted successfully")])))
    (failed "Failed to delete property").

(** ** Review routes *)

(** [{ ...rating, property_name: property?.property_name || "Unknown Property",
       property_image: property?.property_image || "" }] *)
Definition with_property_details (rating : obj) (property : option obj) : obj :=
  <["property_image" := or_else (property ≫= (.!! "property_image")) (VStr "")]>
    (<["property_name" :=
         or_else (property ≫= (.!! "property_name")) (VStr "Unknown Property")]>
       rating).

(** [(prop) => prop._id.toString() === rating.property_id] *)
Definition is_property_of (rating : obj) (prop : obj) : result bool :=
  match toString (prop !! "_id") with
  | Throw e => Throw e
  | Ok s => Ok (bool_decide (rating !! "property_id" = Some (VStr s)))
  end.

(** [app.get("/my-property-ratings/:email", verifyToken, ...)] *)
Definition get_my_property_ratings (env : Env) (email : string) : Handler :=
  try_catch
    (userProperties ←
       find propertiesCollection [Equals ["posted_by"; "email"] (VStr email)];
     if bool_decide (length userProperties = 0%nat)
     then mret (send (VArr []))
     else
       propertyIds ← lift (array_map (λ prop, toString (prop !! "_id")) userProperties);
       ratings ←
         find_sorted env reviewsCollection
           [IsIn ["property_id"] (VStr <$> propertyIds)] "created_at";
       ratingsWithPropertyDetails ←
         lift (array_map
                 (λ rating,
                    match array_find (is_property_of rating) userProperties with
                    | Throw e => Throw e
                    | Ok property => Ok (with_property_details rating property)
                    end)
                 ratings);
       mret (send (VArr (VObj <$> ratingsWithPropertyDetails))))
    (failed "Failed to fetch ratings").

(** [app.get("/my-ratings/:email", verifyToken, ...)] *)
Definition get_my_ratings (env : Env) (email : string) : Handler :=
  try_catch
    (ratings ← find reviewsCollection [Equals ["reviewer_email"] (VStr email)];
     ratingsWithPropertyDetails ←
       Promise_all
         ((λ rating,
             oid ← lift (new_ObjectId env (rating !! "property_id"));
             property ← findOne propertiesCollection (by_id oid);
             mret (with_property_details rating property)) <$> ratings);
     mret (send (VArr (VObj <$> ratingsWithPropertyDetails))))
    (failed "Failed to fetch ratings").

(** [app.get("/properties/:id/reviews", ...)] *)
Definition get_properties_id_reviews (env : Env) (id : string) : Handler :=
  try_catch
    (reviews ←
       find_sorted env reviewsCollection [Equals ["property_id"] (VStr id)] "created_at";
     mret (send (VArr (VObj <$> reviews))))
    (failed "Failed to fetch reviews").

(** The [reviewData] literal of the handler below. *)
Definition reviewData (env : Env) (id : string) (body : obj) : obj :=
  object [("property_id", VStr id);
          ("rating", serialize (body !! "rating"));
          ("review_text", serialize (body !! "review_text"));
          ("reviewer_email", serialize (body !! "reviewer_email"));
          ("reviewer_name", serialize (body !! "reviewer_name"));
          ("created_at", VStr (toISOString env))].

(** [app.post("/properties/:id/reviews", verifyToken, ...)] *)
Definition post_properties_id_reviews (env : Env) (id : string) (req : Request)
  : Handler :=
  try_catch
    (let reviewer_email := body req !! "reviewer_email" in
     existingReview ←
       findOne reviewsCollection
         [Equals ["property_id"] (VStr id);
          Equals ["reviewer_email"] (serialize reviewer_email)];
     match existingReview with
     | Some _ =>
         mret (json 400
                 (object [("message", VStr "You have already reviewed this property")]))
     | None =>
         result ← insertOne env reviewsCollection (reviewData env id (body req));
         mret (json 201 (object [("message", VStr "Review added successfully");
                                 ("result", VObj result)]))
     end)
    (failed "Failed to add review").

(** [app.put("/reviews/:id", verifyToken, ...)] *)
Definition put_reviews_id (env : Env) (id : string) (req : Request) : Handler :=
  try_catch
    (let rating := body req !! "rating" in
     let review_text := body req !! "review_text" in
     if negb (ObjectId.isValid id)
     then mret (json 400 (object [("message", VStr "Invalid review ID")]))
     else
       oid ← lift (ObjectId.new id);
       matchedCount ←
         updateOne reviewsCollection (by_id oid)
           (object [("rating", serialize rating);
                    ("review_text", serialize review_text);
                    ("updated_at", VStr (toISOString env))]);
       if bool_decide (matchedCount = 0)
       then mret (json 404 (object [("message", VStr "Review not found")]))
       else mret (send (VObj (object [("message", VStr "Review updated successfully")]))))
    (failed "Failed to update review").

(** [app.delete("/reviews/:id", verifyToken, ...)] *)
Definition delete_reviews_id (id : string) : Handler :=
  try_catch
    (if negb (ObjectId.isValid id)
     then mret (json 400 (object [("message", VStr "Invalid review ID")]))
     else
       oid ← lift (ObjectId.new id);
       deletedCount ← deleteOne reviewsCollection (by_id oid);
       if bool_decide (deletedCount = 0)
       then mret (json 404 (object [("message", VStr "Review not found")]))
       else mret (send (VObj (object [("message", VStr "Review deleted successfully")]))))
    (failed "Failed to delete review").

(** ** Testimonial routes *)

(** [app.get("/testimonials", ...)] *)
Definition get_testimonials (env : Env) : Handler :=
  try_catch
    (testimonials ← find_sorted env testimonialsCollection [] "created_at";
     mret (send (VArr (VObj <$> testimonials))))
    failed_error.

(** [app.get("/testimonials/user/:email", verifyToken, ...)] *)
Definition get_testimonials_user (email : string) : Handler :=
  try_catch
    (testimonial ← findOne testimonialsCollection [Equals ["email"] (VStr email)];
     match testimonial with
     | None => mret (json 404 (object [("error", VStr "No testimonial found")]))
     | Some d => mret (send (VObj d))
     end)
    failed_error.

(** [app.post("/testimonials", verifyToken, ...)] *)
Definition post_testimonials (env : Env) (req : Request) : Handler :=
  try_catch
    (let testimonial := body req in
     existingTestimonial ←
       findOne testimonialsCollection
         [Equals ["email"] (serialize (testimonial !! "email"))];
     match existingTestimonial with
     | Some _ =>
         mret (json 400
                 (object [("error", VStr "You have already submitted a testimonial")]))
     | None =>
         result ← insertOne env testimonialsCollection testimonial;
         mret (json 201 (object [("message", VStr "Testimonial submitted successfully");
                                 ("insertedId", serialize (result !! "insertedId"))]))
     end)
    failed_error.

(** [app.put("/testimonials/:id", verifyToken, ...)] *)
Definition put_testimonials_id (env : Env) (id : string) (req : Request) : Handler :=
  try_catch
    (let updateData := delete "_id" (body req) in
     oid ← lift (ObjectId.new id);
     matchedCount ←
       updateOne testimonialsCollection (by_id oid)
         (<["updated_at" := VStr (toISOString env)]> updateData);
     if bool_decide (matchedCount = 0)
     then mret (json 404 (object [("error", VStr "Testimonial not found")]))
     else mret (json 200 (object [("message", VStr "Testimonial updated successfully")])))
    failed_error.

(** [app.delete("/testimonials/:id", verifyToken, ...)] *)
Definition delete_testimonials_id (id : string) : Handler :=
  try_catch
    (oid ← lift (ObjectId.new id);
     deletedCount ← deleteOne testimonialsCollection (by_id oid);
     if bool_decide (deletedCount = 0)
     then mret (json 404 (object [("error", VStr "Testimonial not found")]))
     else mret (json 200 (object [("message", VStr "Testimonial deleted successfully")])))
    failed_error.

(** [app.get("/", ...)] *)
Definition get_root : Handler := λ w, (send (VStr "HomeNest API Server Running!"), w).

(** ** The application: the route table of [run] *)

Definition protected (r : Route) : bool :=
  match r with
  | GET_properties | GET_properties_id _ | GET_properties_id_reviews _
  | GET_testimonials | GET_root => false
  | _ => true
  end.

Definition handler (env : Env) (req : Request) : Handler :=
  match route req with
  | GET_properties => get_properties
  | GET_properties_id id => get_properties_id id
  | GET_my_properties email => get_my_properties email
  | POST_properties => post_properties env req
  | PUT_properties_id id => put_properties_id id req
  | DELETE_properties_id id => delete_properties_id id
  | GET_my_property_ratings email => get_my_property_ratings env email
  | GET_my_ratings email => get_my_ratings env email
  | GET_properties_id_reviews id => get_properties_id_reviews env id
  | POST_properties_id_reviews id => post_properties_id_reviews env id req
  | PUT_reviews_id id => put_reviews_id env id req
  | DELETE_reviews_id id => delete_reviews_id id
  | GET_testimonials => get_testimonials env
  | GET_testimonials_user email => get_testimonials_user email
  | POST_testimonials => post_testimonials env req
  | PUT_testimonials_id id => put_testimonials_id env id req
  | DELETE_testimonials_id id => delete_testimonials_id id
  | GET_root => get_root
  end.

Definition app (env : Env) (req : Request) : Handler :=
  if protected (route req)
  then verifyToken env (handler env) req
  else handler env req.

(** * Vocabulary of the statements *)

(** ** Identifiers *)

Definition hex_digits : list ascii :=
  String.list_ascii_of_string "0123456789abcdefABCDEF".

(** A 24-hex-character string. *)
Definition hex24 (s : string) : Prop :=
  String.length s = 24%nat ∧
  Forall (λ c, c ∈ hex_digits) (String.list_ascii_of_string s).

(** The document carries the identifier [oid]. *)
Definition has_id (oid : ObjectId.t) (d : obj) : Prop :=
  d !! "_id" = Some (VOid oid).

(** The collection holds a document with the identifier [oid]. *)
Definition stored (c : Collection) (oid : ObjectId.t) (db : Db) : Prop :=
  ∃ d, d ∈ documents c db ∧ has_id oid d.

(** The store's guarantee on [_id]: no two documents of a collection carry
    the same identifier. *)
Definition unique_ids (l : list obj) : Prop := NoDup ((.!! "_id") <$> l).

(** The routes that address one document of a collection by [:id], and
    those of them that delete it. *)
Definition addresses (r : Route) (c : Collection) (id : string) : Prop :=
  (c = propertiesCollection ∧
   r ∈ [GET_properties_id id; PUT_properties_id id; DELETE_properties_id id]) ∨
  (c = reviewsCollection ∧ r ∈ [PUT_reviews_id id; DELETE_reviews_id id]).

Definition deletes (r : Route) (c : Collection) (id : string) : Prop :=
  (c = propertiesCollection ∧ r = DELETE_properties_id id) ∨
  (c = reviewsCollection ∧ r = DELETE_reviews_id id).

(** ** The guard *)

(** The request carries a bearer token that the verifier accepts. *)
Definition authenticated (env : Env) (req : Request) : Prop :=
  ∃ token decodedToken,
    bearer (authorization req) = Some token ∧ token ≠ "" ∧
    verifyIdToken env token = Ok decodedToken.

(** The request gets past the guard of its route, if the route has one. *)
Definition passes_guard (env : Env) (req : Request) : Prop :=
  protected (route req) = true → authenticated env req.

(** ** The database from request to request *)

(** Requests served one after the other, each in its own environment. *)
Fixpoint serve (l : list (Env * Request)) (w : World) : World :=
  match l with
  | [] => w
  | (env, req) :: l' => serve l' (app env req w).2
  end.

(** The pair a review is filed under. *)
Definition review_key (d : obj) : option value * option value :=
  (d !! "property_id", d !! "reviewer_email").

(** At most one review per (property_id, reviewer_email) pair. *)
Definition one_review_per_pair (db : Db) : Prop :=
  NoDup (review_key <$> reviews db).

(** A computation that leaves the database as it was. *)
Definition keeps_db {A} (m : M A) : Prop := ∀ w, db (m w).2 = db w.

(** What one request may do to the database: nothing, append one document
    whose identifier (and, for a review, whose pair) is new to its
    collection, rewrite the first match of a collection without touching
    identifier or pair, or delete the first match of a collection. *)
Inductive db_step (db : Db) : Db → Prop :=
| step_none : db_step db db
| step_insert c d :
    d !! "_id" ∉ (.!! "_id") <$> documents c db →
    (c = reviewsCollection → review_key d ∉ review_key <$> reviews db) →
    db_step db (with_documents c (documents c db ++ [d]) db)
| step_update c p f :
    (∀ d, f d !! "_id" = d !! "_id") →
    (c = reviewsCollection → ∀ d, review_key (f d) = review_key d) →
    db_step db (with_documents c (update_first p f (documents c db)) db)
| step_delete c p :
    db_step db (with_documents c (delete_first p (documents c db)) db).

(** ** Enriched listings *)

(** The property was posted by [email], as the owner filter reads it. *)
Definition posted_by (email : string) (p : obj) : Prop :=
  resolve ["posted_by"; "email"] (VObj p) = Some (VStr email).

(** The reviews GET /my-ratings/:email lists. *)
Definition reviews_by (email : string) (d : Db) : list obj :=
  List.filter (matches [Equals ["reviewer_email"] (VStr email)]) (reviews d).

(** The entry [e] shows [field] of the property [p]: the property's value
    when that is truthy, the [fallback] when it is missing or falsy. *)
Definition shows (e p : obj) (field : string) (fallback : value) : Prop :=
  (truthy (p !! field) = true → e !! field = p !! field) ∧
  (truthy (p !! field) = false → e !! field = Some fallback).

(** The entry [e] is the review [rating] with the two detail fields added. *)
Definition extends (e rating : obj) : Prop :=
  ∀ k, k ≠ "property_name" → k ≠ "property_image" → e !! k = rating !! k.

(** An entry of GET /my-property-ratings/:email: a stored review with the
    details of the owner's property whose identifier, as a string, is the
    review's [property_id]. *)
Definition joined_entry (email : string) (d : Db) (entry : value) : Prop :=
  ∃ e rating p s,
    entry = VObj e ∧ rating ∈ reviews d ∧ extends e rating ∧
    p ∈ properties d ∧ posted_by email p ∧
    toString (p !! "_id") = Ok s ∧ rating !! "property_id" = Some (VStr s) ∧
    shows e p "property_name" (VStr "Unknown Property") ∧
    shows e p "property_image" (VStr "").

(** An entry of GET /my-ratings/:email for the review [rating]: the review
    with the details of the property its [property_id], read as an
    identifier, is found under; or with the fallbacks when no property
    carries that identifier. *)
Definition looked_up_entry (env : Env) (d : Db) (rating : obj) (entry : value)
  : Prop :=
  ∃ e oid,
    entry = VObj e ∧ extends e rating ∧
    new_ObjectId env (rating !! "property_id") = Ok oid ∧
    ((∃ p, p ∈ properties d ∧ has_id oid p ∧
           shows e p "property_name" (VStr "Unknown Property") ∧
           shows e p "property_image" (VStr "")) ∨
     (¬ stored propertiesCollection oid d ∧
      e !! "property_name" = Some (VStr "Unknown Property") ∧
      e !! "property_image" = Some (VStr ""))).

(** The callback of GET /my-ratings/:email for one review, as a function
    of the properties collection: the result of the two awaits without
    the store calls they record. *)
Definition details_by_lookup (env : Env) (props : list obj) (rating : obj)
  : result obj :=
  match new_ObjectId env (rating !! "property_id") with
  | Throw e => Throw e
  | Ok oid => Ok (with_property_details rating (List.find (matches (by_id oid)) props))
  end.

(** * Sample data

    Concrete environments, requests and worlds at which the statements
    below are instantiated. *)

Definition sample_id : string := "507f1f77bcf86cd799439011".
Definition other_id : string := "65a1b2c3d4e5f60718293a4b".

(** A verifier that accepts the single token ["good"]; the driver's next
    identifier is [other_id]. *)
Definition sample_env : Env :=
  mkEnv (λ token, if bool_decide (token = "good")
                  then Ok (VObj (object [("email", VStr "owner@example.com")]))
                  else Throw (TypeError "Decoding Firebase ID token failed"))
        "2024-05-01T10:00:00.000Z"
        (ObjectId.make other_id)
        (λ _ _, true).

Definition sample_request (r : Route) (body : obj) : Request :=
  mkRequest r (Some "Bearer good") body None.

Definition empty_world : World := mkWorld (mkDb [] [] []) [].

(** A property, a review of it, and a world that holds both. *)
Definition sample_property : obj :=
  object [("_id", VOid (ObjectId.make other_id));
          ("property_name", VStr "Villa");
          ("property_image", VStr "villa.jpg");
          ("posted_by", VObj (object [("email", VStr "owner@example.com")]))].

Definition sample_review : obj :=
  object [("_id", VOid (ObjectId.make sample_id));
          ("property_id", VStr other_id);
          ("rating", VNum 4);
          ("review_text", VStr "Bright and quiet");
          ("reviewer_email", VStr "guest@example.com");
          ("reviewer_name", VStr "Guest");
          ("created_at", VStr "2024-04-01T09:00:00.000Z")].

Definition sample_world : World :=
  mkWorld (mkDb [sample_property] [sample_review] []) [].


Definition first_post : Request :=
  sample_request (POST_properties_id_reviews other_id)
    (object [("_id", VStr "forged");
             ("property_id", VStr "elsewhere");
             ("created_at", VStr "1999-01-01T00:00:00.000Z");
             ("rating", VNum 5);
             ("reviewer_email", VStr "visitor@example.com")]).

(** The sample property stored with an empty name, and a world that holds
    it together with the sample review. *)
Definition unnamed_property : obj :=
  object [("_id", VOid (ObjectId.make other_id));
          ("property_name", VStr "");
          ("property_image", VStr "villa.jpg");
          ("posted_by", VObj (object [("email", VStr "owner@example.com")]))].

Definition unnamed_world : World :=
  mkWorld (mkDb [unnamed_property] [sample_review] []) [].

(** * Further vocabulary *)

(** The requests that only read: the routes registered with [app.get]. *)
Definition is_GET (r : Route) : bool :=
  match r with
  | GET_properties | GET_properties_id _ | GET_my_properties _
  | GET_my_property_ratings _ | GET_my_ratings _ | GET_properties_id_reviews _
  | GET_testimonials | GET_testimonials_user _ | GET_root => true
  | _ => false
  end.

(** The identifier prints as a string the constructor reads back: 24
    lower-case hexadecimal digits, as every generated identifier does. *)
Definition printable (oid : ObjectId.t) : Prop :=
  ObjectId.new (ObjectId.toString oid) = Ok oid.

(** The document [insertOne] stores for [d]: [d] itself when it carries an
    [_id], [d] with the generated identifier otherwise. *)
Definition inserted (env : Env) (d : obj) : obj :=
  if truthy_id (d !! "_id") then d else <["_id" := VOid (generated env)]> d.

(** No document of the collection carries the [_id] of [d]. *)
Definition id_is_new (c : Collection) (d : obj) (db : Db) : Prop :=
  d !! "_id" ∉ (.!! "_id") <$> documents c db.

(** At most one testimonial per [email]. *)
Definition one_testimonial_per_email (db : Db) : Prop :=
  NoDup ((.!! "email") <$> testimonials db).

(** The store's order is total, so that sorting by it is meaningful. *)
Definition total_order (env : Env) : Prop :=
  ∀ x y, bson_le env x y = true ∨ bson_le env y x = true.

(** A testimonial, a second one, and a world that holds both. *)
Definition sample_testimonial : obj :=
  object [("_id", VOid (ObjectId.make sample_id));
          ("email", VStr "guest@example.com");
          ("text", VStr "Found a flat in a week")].

Definition other_testimonial : obj :=
  object [("_id", VOid (ObjectId.make other_id));
          ("email", VStr "owner@example.com");
          ("text", VStr "Let my villa twice")].

Definition testimonial_world : World :=
  mkWorld (mkDb [] [] [sample_testimonial; other_testimonial]) [].

(** The same request sent by somebody else: another accepted token. *)
Definition second_env : Env :=
  mkEnv (λ token,
           if bool_decide (token = "good")
           then Ok (VObj (object [("email", VStr "owner@example.com")]))
           else if bool_decide (token = "fine")
           then Ok (VObj (object [("email", VStr "stranger@example.com")]))
           else Throw (TypeError "Decoding Firebase ID token failed"))
        "2024-05-01T10:00:00.000Z"
        (ObjectId.make other_id)
        (λ _ _, true).

(** A property as a client posts it, and the same with an [_id] of the
    client's own choosing. *)
Definition villa : obj :=
  object [("property_name", VStr "Villa");
          ("posted_by", VObj (object [("email", VStr "a@x.com")]))].

Definition villa_with_id : obj := <["_id" := VStr sample_id]> villa.

(** The collection a route writes to; [None] for the routes that only
    read. *)
Definition collection_of (r : Route) : option Collection :=
  match r with
  | POST_properties | PUT_properties_id _ | DELETE_properties_id _ =>
      Some propertiesCollection
  | POST_properties_id_reviews _ | PUT_reviews_id _ | DELETE_reviews_id _ =>
      Some reviewsCollection
  | POST_testimonials | PUT_testimonials_id _ | DELETE_testimonials_id _ =>
      Some testimonialsCollection
  | _ => None
  end.

(** The routes registered with [app.put]. *)
Definition is_PUT (r : Route) : bool :=
  match r with
  | PUT_properties_id _ | PUT_reviews_id _ | PUT_testimonials_id _ => true
  | _ => false
  end.

(** A review filed under something that is not an identifier. *)
Definition stray_post : Request :=
  sample_request (POST_properties_id_reviews "not-an-id")
    (object [("rating", VNum 3);
             ("reviewer_email", VStr "visitor@example.com")]).

(** An environment whose store orders strings as [String.leb] does (any
    other pair of values counts as ordered), a later review of the sample
    property, and a world that holds both reviews, the older one first. *)
Definition dated_env : Env :=
  mkEnv (verifyIdToken sample_env)
        "2024-05-01T10:00:00.000Z"
        (ObjectId.make other_id)
        (λ x y, match x, y with
                | VStr a, VStr b => String.leb a b
                | _, _ => true
                end).

Definition later_review : obj :=
  object [("_id", VOid (ObjectId.make "65a1b2c3d4e5f60718293a4c"));
          ("property_id", VStr other_id);
          ("rating", VNum 5);
          ("reviewer_email", VStr "visitor@example.com");
          ("created_at", VStr "2024-04-15T18:30:00.000Z")].

Definition two_reviews_world : World :=
  mkWorld (mkDb [sample_property] [sample_review; later_review] []) [].
(** * Statements and proofs *)

(** ** The model on small inputs *)

Example split_bearer_header : split "Bearer " "Bearer abc.def" = [""; "abc.def"].
Proof. reflexivity. Qed.

Example bearer_of_other_scheme : bearer (Some "Basic dXNlcg==") = None.
Proof. reflexivity. Qed.

Example bearer_of_bare_scheme : bearer (Some "Bearer ") = Some "".
Proof. reflexivity. Qed.

Example isValid_mixed_case : ObjectId.isValid "507F1f77bcf86cd799439011" = true.
Proof. reflexivity. Qed.

Example new_prints_lower_case :
  ObjectId.new "507F1f77bcf86cd799439011" = Ok (ObjectId.make sample_id).
Proof. reflexivity. Qed.

Example isValid_twelve_characters : ObjectId.isValid "abcdefghijkl" = false.
Proof. reflexivity. Qed.

Example or_else_empty_string :
  or_else (Some (VStr "")) (VStr "Unknown Property") = VStr "Unknown Property".
Proof. reflexivity. Qed.

Example or_else_name : or_else (Some (VStr "Villa")) (VStr "Unknown Property") = VStr "Villa".
Proof. reflexivity. Qed.

Example js_String_array : js_String (VArr [VNum 12; VNull; VStr "x"]) = "12,,x".
Proof. reflexivity. Qed.

(** POST /properties with [{"property_name": "Villa", "posted_by": {"email":
    "a@x.com"}}] and a valid token answers 201 with the generated
    identifier, and GET /properties/<that identifier> then answers 200 with
    [property_name] = "Villa". *)
Example post_then_get_property :
  let body := object [("property_name", VStr "Villa");
                      ("posted_by", VObj (object [("email", VStr "a@x.com")]))] in
  let posted := app sample_env (sample_request POST_properties body) empty_world in
  let got := app sample_env (mkRequest (GET_properties_id other_id) None ∅ None) posted.2 in
  status posted.1 = 201 ∧
  resolve ["insertedId"] (payload posted.1) = Some (VOid (ObjectId.make other_id)) ∧
  status got.1 = 200 ∧
  resolve ["property_name"] (payload got.1) = Some (VStr "Villa") ∧
  resolve ["_id"] (payload got.1) = Some (VOid (ObjectId.make other_id)).
Proof. by vm_compute. Qed.

(** ** Identifier format *)

Lemma is_hex_digit_spec c : ObjectId.is_hex_digit c = true ↔ c ∈ hex_digits.
Proof.
  rewrite <- (bool_decide_spec (c ∈ hex_digits)), <- Is_true_true.
  destruct c as [[] [] [] [] [] [] [] []]; vm_compute; intuition congruence.
Qed.

Lemma all_hex_spec s :
  ObjectId.all_hex s = true ↔ Forall (λ c, c ∈ hex_digits) (String.list_ascii_of_string s).
Proof.
  induction s as [|c s IH]; simpl.
  - split; [constructor | reflexivity].
  - rewrite andb_true_iff, Forall_cons, IH, is_hex_digit_spec. reflexivity.
Qed.

Lemma isValid_spec s : ObjectId.isValid s = true ↔ hex24 s.
Proof.
  unfold ObjectId.isValid, hex24.
  rewrite andb_true_iff, bool_decide_eq_true, all_hex_spec. reflexivity.
Qed.

Lemma isValid_false s : ObjectId.isValid s = false ↔ ¬ hex24 s.
Proof.
  rewrite <- isValid_spec. destruct (ObjectId.isValid s); intuition congruence.
Qed.

Lemma new_valid id :
  ObjectId.isValid id = true →
  ObjectId.new id = Ok (ObjectId.make (ObjectId.lower id)).
Proof. intros H. unfold ObjectId.new. rewrite H. reflexivity. Qed.

Lemma new_invalid id :
  ObjectId.isValid id = false →
  ObjectId.new id = Throw (BSONError ObjectId.invalid_input).
Proof. intros H. unfold ObjectId.new. rewrite H. reflexivity. Qed.

(** ** The guard *)

Lemma handler_with_user env decodedToken req :
  handler env (with_user decodedToken req) = handler env req.
Proof. unfold handler. destruct req as [[] ? ? ?]; reflexivity. Qed.

Lemma verifyToken_no_token env next req w :
  bearer (authorization req) = None ∨ bearer (authorization req) = Some "" →
  verifyToken env next req w =
    (json 401 (object [("message", VStr "No token provided")]), w).
Proof. unfold verifyToken. intros [-> | ->]; reflexivity. Qed.

Lemma verifyToken_token env next req w token :
  bearer (authorization req) = Some token → token ≠ "" →
  verifyToken env next req w =
    match verifyIdToken env token with
    | Ok decodedToken => next (with_user decodedToken req) w
    | Throw error =>
        (json 401 (object [("message", VStr "Invalid token");
                           ("error", VStr (message error))]), w)
    end.
Proof.
  unfold verifyToken. intros -> Hne. destruct token as [|c token]; [done|reflexivity].
Qed.

Lemma app_passes_guard env req w :
  passes_guard env req → app env req w = handler env req w.
Proof.
  unfold passes_guard, app. destruct (protected (route req)); [|done].
  intros H. destruct H as (token & decodedToken & Hb & Hne & Hv); [done|].
  rewrite (verifyToken_token _ _ _ _ _ Hb Hne), Hv. by rewrite handler_with_user.
Qed.

Lemma sample_passes_guard r body : passes_guard sample_env (sample_request r body).
Proof. intros _. exists "good", (VObj (object [("email", VStr "owner@example.com")])). done. Qed.

(** A header [Bearer <token>] whose token has no space yields that token. *)
Lemma prefix_Bearer_space s :
  String.prefix "Bearer " s = true → " "%char ∈ String.list_ascii_of_string s.
Proof.
  intros H%String.prefix_correct. simpl in H.
  do 7 (destruct s as [|? s]; [by simpl in H|]; simpl in H).
  simplify_eq. simpl. rewrite !elem_of_cons. auto 10.
Qed.

Lemma append_snoc cur c s : (cur +:+ String c "") +:+ s = cur +:+ String c s.
Proof.
  induction cur as [|a cur IH]; [done|].
  change (String a ((cur +:+ String c "") +:+ s) = String a (cur +:+ String c s)).
  by f_equal.
Qed.

Lemma append_empty_r s : s +:+ "" = s.
Proof.
  induction s as [|a s IH]; [done|].
  change (String a (s +:+ "") = String a s). by f_equal.
Qed.

Lemma split_go_no_space cur s :
  " "%char ∉ String.list_ascii_of_string s →
  split_go "Bearer " O cur s = [cur +:+ s].
Proof.
  revert cur. induction s as [|c s IH]; intros cur Hs.
  - by rewrite append_empty_r.
  - cbn [split_go].
    destruct (String.prefix "Bearer " (String c s)) eqn:Hp.
    + by apply prefix_Bearer_space in Hp.
    + rewrite IH, append_snoc; [done|].
      intros Hin. apply Hs. simpl. by apply list_elem_of_further.
Qed.

Lemma bearer_header token :
  " "%char ∉ String.list_ascii_of_string token →
  bearer (Some ("Bearer " +:+ token)) = Some token.
Proof.
  intros Hs. unfold bearer, split. simpl.
  change ("" +:+ token) with token.
  assert (String.prefix "" token = true) as -> by (by destruct token).
  by rewrite split_go_no_space.
Qed.

(** Whatever the guard decides, the application either answers 401 and
    leaves the world as it was, or runs the route's handler. *)
Lemma app_cases env req w :
  (status (app env req w).1 = 401 ∧ (app env req w).2 = w) ∨
  app env req w = handler env req w.
Proof.
  unfold app. destruct (protected (route req)); [|by right].
  unfold verifyToken.
  destruct (bearer (authorization req)) as [[|c token]|]; [by left| |by left].
  destruct (verifyIdToken env _); [right; by rewrite handler_with_user|by left].
Qed.

(** C4: on a protected route, a request without a bearer token is answered
    401 "No token provided"; a request whose token the verifier rejects is
    answered 401 "Invalid token" with the verifier's error message; in both
    cases the answer and the world are the same whatever handler stands
    behind the guard, so the handler does not run.  When the verifier
    accepts the token, the decoded identity becomes [req.user] and the
    route's handler runs on that request. *)
Theorem verifyToken_gate env req w :
  protected (route req) = true →
  app env req w = verifyToken env (handler env) req w ∧
  (authorization req = None → bearer (authorization req) = None) ∧
  (bearer (authorization req) = None ∨ bearer (authorization req) = Some "" →
   ∀ next, verifyToken env next req w =
     (json 401 (object [("message", VStr "No token provided")]), w)) ∧
  (∀ token error,
     bearer (authorization req) = Some token → token ≠ "" →
     verifyIdToken env token = Throw error →
     ∀ next, verifyToken env next req w =
       (json 401 (object [("message", VStr "Invalid token");
                          ("error", VStr (message error))]), w)) ∧
  (∀ token decodedToken,
     bearer (authorization req) = Some token → token ≠ "" →
     verifyIdToken env token = Ok decodedToken →
     user (with_user decodedToken req) = Some decodedToken ∧
     ∀ next, verifyToken env next req w = next (with_user decodedToken req) w).
Proof.
  intros Hp. split_and!.
  - unfold app. by rewrite Hp.
  - by intros ->.
  - intros H next. by apply verifyToken_no_token.
  - intros token error Hb Hne Hv next.
    by rewrite (verifyToken_token _ _ _ _ _ Hb Hne), Hv.
  - intros token decodedToken Hb Hne Hv. split; [done|]. intros next.
    by rewrite (verifyToken_token _ _ _ _ _ Hb Hne), Hv.
Qed.

Lemma verifyToken_gate_witness :
  app sample_env (mkRequest POST_properties None ∅ None) empty_world =
    (json 401 (object [("message", VStr "No token provided")]), empty_world) ∧
  app sample_env (mkRequest POST_properties (Some "Bearer bad") ∅ None) empty_world =
    (json 401 (object [("message", VStr "Invalid token");
                       ("error", VStr "Decoding Firebase ID token failed")]),
     empty_world) ∧
  app sample_env (sample_request POST_properties ∅) empty_world =
    handler sample_env
      (with_user (VObj (object [("email", VStr "owner@example.com")]))
         (sample_request POST_properties ∅))
      empty_world.
Proof.
  split_and!.
  - destruct (verifyToken_gate sample_env (mkRequest POST_properties None ∅ None)
                empty_world eq_refl) as (-> & _ & H & _).
    apply H. by left.
  - destruct (verifyToken_gate sample_env
                (mkRequest POST_properties (Some "Bearer bad") ∅ None)
                empty_world eq_refl) as (-> & _ & _ & H & _).
    by apply (H "bad" (TypeError "Decoding Firebase ID token failed")).
  - destruct (verifyToken_gate sample_env (sample_request POST_properties ∅)
                empty_world eq_refl) as (-> & _ & _ & _ & H).
    by apply (H "good" (VObj (object [("email", VStr "owner@example.com")]))).
Defined.

(** ** Malformed identifiers *)

(** C2: for an identifier that is not a 24-hex-character string, GET, PUT
    and DELETE on /properties/:id and PUT and DELETE on /reviews/:id answer
    400, and the world (the database and the record of store calls) is left
    as it was: no store operation is performed. *)
Theorem malformed_id_is_rejected env req w id :
  ¬ hex24 id →
  route req ∈ [GET_properties_id id; PUT_properties_id id; DELETE_properties_id id;
               PUT_reviews_id id; DELETE_reviews_id id] →
  passes_guard env req →
  ∃ msg, app env req w = (json 400 (object [("message", VStr msg)]), w).
Proof.
  intros Hid Hroute Hadm. apply isValid_false in Hid.
  rewrite (app_passes_guard _ _ _ Hadm). unfold handler.
  set_unfold in Hroute.
  destruct Hroute as [-> | [-> | [-> | [-> | [-> | []]]]]];
    [ unfold get_properties_id | unfold put_properties_id
    | unfold delete_properties_id | unfold put_reviews_id
    | unfold delete_reviews_id ];
    unfold try_catch; rewrite Hid; simpl; eauto.
Qed.

Lemma malformed_id_is_rejected_witness :
  (¬ hex24 "42" ∧
   PUT_reviews_id "42" ∈
     [GET_properties_id "42"; PUT_properties_id "42"; DELETE_properties_id "42";
      PUT_reviews_id "42"; DELETE_reviews_id "42"] ∧
   passes_guard sample_env (sample_request (PUT_reviews_id "42") ∅)) ∧
  ∃ msg, app sample_env (sample_request (PUT_reviews_id "42") ∅) empty_world =
           (json 400 (object [("message", VStr msg)]), empty_world).
Proof.
  assert (H1 : ¬ hex24 "42") by (intros [H _]; discriminate H).
  assert (H2 : PUT_reviews_id "42" ∈
     [GET_properties_id "42"; PUT_properties_id "42"; DELETE_properties_id "42";
      PUT_reviews_id "42"; DELETE_reviews_id "42"]) by (do 3 right; left).
  pose proof (sample_passes_guard (PUT_reviews_id "42") ∅) as H3.
  split; [done|].
  exact (malformed_id_is_rejected sample_env (sample_request (PUT_reviews_id "42") ∅)
           empty_world "42" H1 H2 H3).
Defined.

(** C8: the testimonial mutation routes do not validate the identifier.
    For an identifier that is not a valid store identifier the [ObjectId]
    constructor throws inside the handler's [try], before any store call,
    and the answer is 500 with the constructor's message, not 400 or 404. *)
Theorem testimonial_malformed_id_is_500 env req w id :
  ObjectId.isValid id = false →
  route req ∈ [PUT_testimonials_id id; DELETE_testimonials_id id] →
  passes_guard env req →
  ∃ error,
    ObjectId.new id = Throw error ∧
    app env req w = (json 500 (object [("error", VStr (message error))]), w).
Proof.
  intros Hid Hroute Hadm. exists (BSONError ObjectId.invalid_input).
  split; [by apply new_invalid|].
  rewrite (app_passes_guard _ _ _ Hadm). unfold handler.
  set_unfold in Hroute.
  destruct Hroute as [-> | [-> | []]];
    [ unfold put_testimonials_id | unfold delete_testimonials_id ];
    unfold try_catch, mbind, M_bind, lift; rewrite (new_invalid _ Hid); reflexivity.
Qed.

Lemma testimonial_malformed_id_is_500_witness :
  (ObjectId.isValid "42" = false ∧
   DELETE_testimonials_id "42" ∈ [PUT_testimonials_id "42"; DELETE_testimonials_id "42"] ∧
   passes_guard sample_env (sample_request (DELETE_testimonials_id "42") ∅)) ∧
  ∃ error,
    ObjectId.new "42" = Throw error ∧
    app sample_env (sample_request (DELETE_testimonials_id "42") ∅) empty_world =
      (json 500 (object [("error", VStr (message error))]), empty_world).
Proof.
  assert (H2 : DELETE_testimonials_id "42" ∈
     [PUT_testimonials_id "42"; DELETE_testimonials_id "42"]) by (right; left).
  pose proof (sample_passes_guard (DELETE_testimonials_id "42") ∅) as H3.
  split; [done|].
  exact (testimonial_malformed_id_is_500 sample_env
           (sample_request (DELETE_testimonials_id "42") ∅) empty_world "42" eq_refl H2 H3).
Defined.

(** ** The store *)

Lemma matches_by_id oid d : matches (by_id oid) d = true ↔ has_id oid d.
Proof.
  unfold matches, by_id, has_id; simpl.
  rewrite andb_true_r, bool_decide_eq_true.
  destruct (d !! "_id") as [v|]; simpl; naive_solver.
Qed.

Lemma existsb_elem_of {A} (p : A → bool) l :
  existsb p l = true ↔ ∃ x, x ∈ l ∧ p x = true.
Proof.
  rewrite existsb_exists. by setoid_rewrite list_elem_of_In.
Qed.

Lemma existsb_by_id c oid db :
  existsb (matches (by_id oid)) (documents c db) = true ↔ stored c oid db.
Proof.
  rewrite existsb_elem_of. unfold stored. by setoid_rewrite matches_by_id.
Qed.

Lemma existsb_by_id_false c oid db :
  existsb (matches (by_id oid)) (documents c db) = false ↔ ¬ stored c oid db.
Proof.
  rewrite <- existsb_by_id. destruct (existsb _ _); intuition congruence.
Qed.

Lemma find_by_id c oid db :
  (∃ d, List.find (matches (by_id oid)) (documents c db) = Some d) ↔ stored c oid db.
Proof.
  rewrite <- existsb_by_id, existsb_elem_of. split.
  - intros [d Hd]. apply find_some in Hd as [Hin Hm].
    exists d. by rewrite list_elem_of_In.
  - intros (d & Hin & Hm).
    destruct (List.find _ _) as [d'|] eqn:Hf; [by eexists|].
    apply list_elem_of_In in Hin. by rewrite (find_none _ _ Hf _ Hin) in Hm.
Qed.

Lemma with_documents_same c db : with_documents c (documents c db) db = db.
Proof. by destruct c, db. Qed.

Lemma documents_with_documents c l db : documents c (with_documents c l db) = l.
Proof. by destruct c. Qed.

Lemma documents_with_documents_ne c c' l db :
  c ≠ c' → documents c' (with_documents c l db) = documents c' db.
Proof. by destruct c, c'. Qed.

Section first_match.
Context (p : obj → bool).

Lemma delete_first_none l : existsb p l = false → delete_first p l = l.
Proof.
  induction l as [|d l IH]; simpl; [done|].
  destruct (p d); simpl; [done|]. intros H. by rewrite IH.
Qed.

Lemma delete_first_sublist l : delete_first p l `sublist_of` l.
Proof.
  induction l as [|d l IH]; simpl; [done|].
  destruct (p d); [by apply sublist_cons | by apply sublist_skip].
Qed.

Lemma update_first_none f l : existsb p l = false → update_first p f l = l.
Proof.
  induction l as [|d l IH]; simpl; [done|].
  destruct (p d); simpl; [done|]. intros H. by rewrite IH.
Qed.

(** [update_first] rewrites the first match and nothing else. *)
Lemma update_first_app f pre d post :
  Forall (λ x, p x = false) pre → p d = true →
  update_first p f (pre ++ d :: post) = pre ++ f d :: post.
Proof.
  intros Hpre Hd. induction Hpre as [|x pre Hx _ IH]; simpl.
  - by rewrite Hd.
  - by rewrite Hx, IH.
Qed.

Lemma delete_first_app pre d post :
  Forall (λ x, p x = false) pre → p d = true →
  delete_first p (pre ++ d :: post) = pre ++ post.
Proof.
  intros Hpre Hd. induction Hpre as [|x pre Hx _ IH]; simpl.
  - by rewrite Hd.
  - by rewrite Hx, IH.
Qed.

Lemma first_match_split l :
  existsb p l = true →
  ∃ pre d post, l = pre ++ d :: post ∧ Forall (λ x, p x = false) pre ∧ p d = true.
Proof.
  induction l as [|x l IH]; simpl; [done|].
  destruct (p x) eqn:Hx; simpl.
  - intros _. by exists [], x, l.
  - intros (pre & d & post & -> & Hpre & Hd)%IH.
    exists (x :: pre), d, post. split_and!; [done| by constructor | done].
Qed.

Lemma update_first_fmap {B} (g : obj → B) f l :
  (∀ d, g (f d) = g d) → g <$> update_first p f l = g <$> l.
Proof.
  intros Hg. induction l as [|d l IH]; csimpl; [done|].
  destruct (p d); csimpl; [by rewrite Hg | by rewrite IH].
Qed.
End first_match.

(** Once the first document carrying [oid] is deleted from a collection
    with unique identifiers, none carries it. *)
Lemma delete_first_by_id oid l :
  unique_ids l →
  Forall (λ d, ¬ has_id oid d) (delete_first (matches (by_id oid)) l).
Proof.
  unfold unique_ids. induction l as [|d l IH]; [done|].
  rewrite fmap_cons, NoDup_cons. intros [Hd Hl].
  cbn [delete_first]. destruct (matches (by_id oid) d) eqn:Hm.
  - apply matches_by_id in Hm. apply Forall_forall. intros x Hx Hid.
    apply Hd. unfold has_id in Hm, Hid. rewrite Hm, <- Hid.
    by apply list_elem_of_fmap_2.
  - constructor; [|by apply IH].
    rewrite <- matches_by_id. by rewrite Hm.
Qed.

Lemma unique_ids_sublist l1 l2 : l1 `sublist_of` l2 → unique_ids l2 → unique_ids l1.
Proof.
  intros Hs Hl. apply (sublist_NoDup _ ((.!! "_id") <$> l2)); [done|].
  by apply fmap_sublist.
Qed.

(** ** What each handler computes *)

Ltac run :=
  unfold try_catch, mbind, M_bind, mret, M_ret, lift, throw,
    find, find_sorted, findOne, updateOne, deleteOne, record, read, write;
  simpl.

Lemma get_properties_id_run id w :
  ObjectId.isValid id = true →
  get_properties_id id w =
    let q := by_id (ObjectId.make (ObjectId.lower id)) in
    (match List.find (matches q) (properties (db w)) with
     | Some d => send (VObj d)
     | None => json 404 (object [("message", VStr "Property not found")])
     end,
     mkWorld (db w) (calls w ++ [call_findOne propertiesCollection q])).
Proof.
  intros H. unfold get_properties_id. rewrite H, (new_valid _ H). run.
  by destruct (List.find _ _).
Qed.

Lemma put_properties_id_run id req w :
  ObjectId.isValid id = true →
  put_properties_id id req w =
    let q := by_id (ObjectId.make (ObjectId.lower id)) in
    let set := delete "_id" (body req) in
    (if existsb (matches q) (properties (db w))
     then json 200 (object [("message", VStr "Property updated successfully")])
     else json 404 (object [("message", VStr "Property not found")]),
     mkWorld
       (with_documents propertiesCollection
          (update_first (matches q) (λ d, set ∪ d) (properties (db w))) (db w))
       (calls w ++ [call_updateOne propertiesCollection q set])).
Proof.
  intros H. unfold put_properties_id. rewrite H, (new_valid _ H). run.
  unfold count_first. by destruct (existsb _ _).
Qed.

Lemma delete_properties_id_run id w :
  ObjectId.isValid id = true →
  delete_properties_id id w =
    let q := by_id (ObjectId.make (ObjectId.lower id)) in
    (if existsb (matches q) (properties (db w))
     then json 200 (object [("message", VStr "Property deleted successfully")])
     else json 404 (object [("message", VStr "Property not found")]),
     mkWorld
       (with_documents propertiesCollection
          (delete_first (matches q) (properties (db w))) (db w))
       (calls w ++ [call_deleteOne propertiesCollection q])).
Proof.
  intros H. unfold delete_properties_id. rewrite H, (new_valid _ H). run.
  unfold count_first. by destruct (existsb _ _).
Qed.

(** The [$set] document of PUT /reviews/:id. *)
Lemma put_reviews_id_run env id req w :
  ObjectId.isValid id = true →
  put_reviews_id env id req w =
    let q := by_id (ObjectId.make (ObjectId.lower id)) in
    let set := object [("rating", serialize (body req !! "rating"));
                       ("review_text", serialize (body req !! "review_text"));
                       ("updated_at", VStr (toISOString env))] in
    (if existsb (matches q) (reviews (db w))
     then send (VObj (object [("message", VStr "Review updated successfully")]))
     else json 404 (object [("message", VStr "Review not found")]),
     mkWorld
       (with_documents reviewsCollection
          (update_first (matches q) (λ d, set ∪ d) (reviews (db w))) (db w))
       (calls w ++ [call_updateOne reviewsCollection q set])).
Proof.
  intros H. unfold put_reviews_id. rewrite H, (new_valid _ H). run.
  unfold count_first. by destruct (existsb _ _).
Qed.

Lemma delete_reviews_id_run id w :
  ObjectId.isValid id = true →
  delete_reviews_id id w =
    let q := by_id (ObjectId.make (ObjectId.lower id)) in
    (if existsb (matches q) (reviews (db w))
     then send (VObj (object [("message", VStr "Review deleted successfully")]))
     else json 404 (object [("message", VStr "Review not found")]),
     mkWorld
       (with_documents reviewsCollection
          (delete_first (matches q) (reviews (db w))) (db w))
       (calls w ++ [call_deleteOne reviewsCollection q])).
Proof.
  intros H. unfold delete_reviews_id. rewrite H, (new_valid _ H). run.
  unfold count_first. by destruct (existsb _ _).
Qed.

(** ** Present and absent identifiers *)

Lemma hex24_sample_id : hex24 sample_id.
Proof. by apply isValid_spec. Qed.

Lemma deletes_addresses r c id : deletes r c id → addresses r c id.
Proof.
  intros [[-> ->] | [-> ->]]; [left | right]; (split; [done|]); set_solver.
Qed.

(** C7: for a well-formed identifier, GET, PUT and DELETE on
    /properties/:id and PUT and DELETE on /reviews/:id answer 404 exactly
    when the collection holds no document with that identifier, and 200
    exactly when it holds one.  A DELETE that finds the document answers
    with a confirmation message and removes that one document, and,
    identifiers being unique in a collection, the same DELETE repeated
    answers 404. *)
Theorem not_found_iff_absent env req w c id :
  hex24 id →
  addresses (route req) c id →
  passes_guard env req →
  let oid := ObjectId.make (ObjectId.lower id) in
  (status (app env req w).1 = 404 ↔ ¬ stored c oid (db w)) ∧
  (status (app env req w).1 = 200 ↔ stored c oid (db w)) ∧
  (deletes (route req) c id → stored c oid (db w) →
   (∃ msg, payload (app env req w).1 = VObj (object [("message", VStr msg)])) ∧
   (∃ pre d post,
      documents c (db w) = pre ++ d :: post ∧ has_id oid d ∧
      Forall (λ x, ¬ has_id oid x) pre ∧
      db (app env req w).2 = with_documents c (pre ++ post) (db w)) ∧
   (unique_ids (documents c (db w)) →
    status (app env req (app env req w).2).1 = 404)).
Proof.
  intros Hid%isValid_spec Hroute Hadm oid.
  assert (Hcases :
    ∃ ok nf l',
      app env req w =
        (if existsb (matches (by_id oid)) (documents c (db w)) then ok else nf,
         mkWorld (with_documents c l' (db w)) (calls (app env req w).2)) ∧
      status ok = 200 ∧ status nf = 404 ∧
      (deletes (route req) c id →
       (∃ msg, payload ok = VObj (object [("message", VStr msg)])) ∧
       l' = delete_first (matches (by_id oid)) (documents c (db w)) ∧
       ∀ w', app env req w' =
         (if existsb (matches (by_id oid)) (documents c (db w')) then ok else nf,
          mkWorld (with_documents c
                     (delete_first (matches (by_id oid)) (documents c (db w')))
                     (db w'))
                  (calls (app env req w').2)))).
  { rewrite (app_passes_guard _ _ _ Hadm). unfold handler.
    destruct Hroute as [[-> Hr] | [-> Hr]]; set_unfold in Hr.
    - destruct Hr as [Hr | [Hr | [Hr | []]]]; rewrite Hr.
      + rewrite (get_properties_id_run _ _ Hid). cbn zeta. fold oid.
        destruct (List.find _ _) as [d|] eqn:Hf.
        * exists (send (VObj d)), (json 404 ∅), (properties (db w)).
          apply find_some in Hf as [Hin Hm].
          assert (existsb (matches (by_id oid)) (documents propertiesCollection (db w)) = true)
            as -> by (apply existsb_exists; eauto).
          rewrite with_documents_same. destruct w. split_and!; try done.
          intros [[_ ?] | [? _]]; done.
        * eexists (send VNull), _, (properties (db w)).
          assert (existsb (matches (by_id oid)) (documents propertiesCollection (db w)) = false)
            as ->.
          { destruct (existsb _ _) eqn:He; [|done].
            apply existsb_exists in He as (d & Hin & Hm).
            by rewrite (find_none _ _ Hf _ Hin) in Hm. }
          rewrite with_documents_same. destruct w. split_and!; try done.
          intros [[_ ?] | [? _]]; done.
      + rewrite (put_properties_id_run _ _ _ Hid). cbn zeta. fold oid.
        do 3 eexists. split_and!; try done.
        intros [[_ ?] | [? _]]; done.
      + do 3 eexists. split_and!.
        * rewrite (delete_properties_id_run _ _ Hid). cbn zeta. fold oid. done.
        * done.
        * done.
        * intros _. split_and!; [by eexists|done|]. intros w'.
          rewrite (app_passes_guard _ _ _ Hadm).
          unfold handler. rewrite Hr.
          by rewrite (delete_properties_id_run _ _ Hid).
    - destruct Hr as [Hr | [Hr | []]]; rewrite Hr.
      + rewrite (put_reviews_id_run _ _ _ _ Hid). cbn zeta. fold oid.
        do 3 eexists. split_and!; try done.
        intros [[? _] | [_ ?]]; done.
      + do 3 eexists. split_and!.
        * rewrite (delete_reviews_id_run _ _ Hid). cbn zeta. fold oid. done.
        * done.
        * done.
        * intros _. split_and!; [by eexists|done|]. intros w'.
          rewrite (app_passes_guard _ _ _ Hadm).
          unfold handler. rewrite Hr.
          by rewrite (delete_reviews_id_run _ _ Hid). }
  destruct Hcases as (ok & nf & l' & Happ & Hok & Hnf & Hdel).
  pose proof (existsb_by_id c oid (db w)) as Hst.
  pose proof (existsb_by_id_false c oid (db w)) as Hnst.
  split_and!.
  - rewrite Happ. simpl. destruct (existsb _ _).
    + split; [congruence|]. intros H. destruct H. by apply Hst.
    + split; [by intros _; apply Hnst | done].
  - rewrite Happ. simpl. destruct (existsb _ _).
    + split; [by intros _; apply Hst | done].
    + split; [congruence|]. intros H. by apply Hnst in H.
  - intros Hd Hs. destruct (Hdel Hd) as ([msg Hmsg] & -> & Hagain). split_and!.
    + exists msg. rewrite Happ. simpl. apply Hst in Hs. by rewrite Hs.
    + apply Hst, first_match_split in Hs as (pre & d & post & Hl & Hpre & Hm).
      exists pre, d, post. split_and!.
      * done.
      * by apply matches_by_id.
      * eapply Forall_impl; [exact Hpre|]. intros x Hx Hx'.
        apply matches_by_id in Hx'. congruence.
      * rewrite Happ. simpl. by rewrite Hl, (delete_first_app _ _ _ _ Hpre Hm).
    + intros Hu. rewrite Happ. simpl. rewrite Hagain. simpl.
      rewrite documents_with_documents.
      destruct (existsb _ (delete_first _ _)) eqn:He; [|done].
      apply existsb_elem_of in He as (x & Hx & Hm).
      pose proof (delete_first_by_id oid _ Hu) as Hall.
      rewrite Forall_forall in Hall. destruct (Hall x Hx). by apply matches_by_id.
Qed.

Lemma sample_review_stored :
  stored reviewsCollection (ObjectId.make (ObjectId.lower sample_id)) (db sample_world).
Proof. exists sample_review. split; [by apply list_elem_of_here | by vm_compute]. Qed.

Lemma not_found_iff_absent_witness :
  status (app sample_env (sample_request (DELETE_reviews_id sample_id) ∅)
            sample_world).1 = 200 ∧
  status (app sample_env (sample_request (DELETE_reviews_id sample_id) ∅)
            (app sample_env (sample_request (DELETE_reviews_id sample_id) ∅)
               sample_world).2).1 = 404.
Proof.
  assert (Hd : deletes (route (sample_request (DELETE_reviews_id sample_id) ∅))
                 reviewsCollection sample_id) by (by right).
  destruct (not_found_iff_absent sample_env
              (sample_request (DELETE_reviews_id sample_id) ∅)
              sample_world reviewsCollection sample_id
              hex24_sample_id (deletes_addresses _ _ _ Hd)
              (sample_passes_guard _ _)) as (_ & H200 & Hdel).
  split.
  - apply H200, sample_review_stored.
  - apply (Hdel Hd sample_review_stored). apply NoDup_singleton.
Defined.

(** ** Updates *)

Lemma not_has_id_pre oid (pre : list obj) :
  Forall (λ x, matches (by_id oid) x = false) pre →
  Forall (λ x, ¬ has_id oid x) pre.
Proof.
  intros H. eapply Forall_impl; [exact H|].
  intros x Hx Hid. apply matches_by_id in Hid. congruence.
Qed.

Lemma review_set_lookup (rating review_text updated_at : value) k :
  object [("rating", rating); ("review_text", review_text);
          ("updated_at", updated_at)] !! k =
    if decide (k = "rating") then Some rating
    else if decide (k = "review_text") then Some review_text
    else if decide (k = "updated_at") then Some updated_at
    else None.
Proof. unfold object. simpl. repeat case_decide; by simplify_map_eq. Qed.

(** C5: for a well-formed identifier, PUT /reviews/:id answers 404 and
    changes nothing when no review carries the identifier; otherwise it
    answers 200 and rewrites the first review carrying it, setting
    [rating], [review_text] (from the body) and [updated_at] (the clock)
    and leaving every other field of that review, every other review and
    the other collections as they were. *)
Theorem put_review_sets_three_fields env req w id :
  hex24 id →
  route req = PUT_reviews_id id →
  passes_guard env req →
  let oid := ObjectId.make (ObjectId.lower id) in
  (¬ stored reviewsCollection oid (db w) →
   status (app env req w).1 = 404 ∧ db (app env req w).2 = db w) ∧
  (stored reviewsCollection oid (db w) →
   ∃ pre d post d',
     reviews (db w) = pre ++ d :: post ∧
     Forall (λ x, ¬ has_id oid x) pre ∧ has_id oid d ∧
     status (app env req w).1 = 200 ∧
     db (app env req w).2 =
       mkDb (properties (db w)) (pre ++ d' :: post) (testimonials (db w)) ∧
     d' !! "rating" = Some (serialize (body req !! "rating")) ∧
     d' !! "review_text" = Some (serialize (body req !! "review_text")) ∧
     d' !! "updated_at" = Some (VStr (toISOString env)) ∧
     ∀ k, k ∉ ["rating"; "review_text"; "updated_at"] → d' !! k = d !! k).
Proof.
  intros Hid%isValid_spec Hroute Hadm oid.
  rewrite (app_passes_guard _ _ _ Hadm). unfold handler. rewrite Hroute.
  rewrite (put_reviews_id_run _ _ _ _ Hid). cbn zeta. fold oid.
  pose proof (existsb_by_id reviewsCollection oid (db w)) as Hst.
  pose proof (existsb_by_id_false reviewsCollection oid (db w)) as Hnst.
  cbn [documents] in Hst, Hnst. split.
  - intros Hn%Hnst. rewrite Hn. split; [done|]. cbn [snd db].
    rewrite (update_first_none _ _ _ Hn). apply (with_documents_same reviewsCollection).
  - intros Hs%Hst. rewrite Hs.
    apply first_match_split in Hs as (pre & d & post & Hl & Hpre & Hm).
    eexists pre, d, post, _. split_and!.
    + done.
    + by apply not_has_id_pre.
    + by apply matches_by_id.
    + done.
    + cbn [snd db]. by rewrite Hl, (update_first_app _ _ _ _ _ Hpre Hm).
    + apply lookup_union_Some_l. by rewrite review_set_lookup.
    + apply lookup_union_Some_l. by rewrite review_set_lookup.
    + apply lookup_union_Some_l. by rewrite review_set_lookup.
    + intros k Hk. rewrite lookup_union_r; [done|].
      rewrite review_set_lookup.
      repeat case_decide; try done; destruct Hk; subst; rewrite !elem_of_cons; auto.
Qed.

Lemma put_review_sets_three_fields_witness :
  status (app sample_env
            (sample_request (PUT_reviews_id sample_id)
               (object [("rating", VNum 2); ("reviewer_email", VStr "x@example.com")]))
            sample_world).1 = 200.
Proof.
  destruct (put_review_sets_three_fields sample_env
              (sample_request (PUT_reviews_id sample_id)
                 (object [("rating", VNum 2); ("reviewer_email", VStr "x@example.com")]))
              sample_world sample_id hex24_sample_id eq_refl (sample_passes_guard _ _))
    as [_ H].
  destruct (H sample_review_stored) as (pre & d & post & d' & _ & _ & _ & H200 & _).
  exact H200.
Defined.


Lemma hex24_other_id : hex24 other_id.
Proof. by apply isValid_spec. Qed.



(** ** Handlers that only read *)

Lemma keeps_db_ret {A} (a : A) : keeps_db (mret a).
Proof. done. Qed.

Lemma keeps_db_lift {A} (r : result A) : keeps_db (lift r).
Proof. done. Qed.

Lemma keeps_db_bind {A B} (m : M A) (k : A → M B) :
  keeps_db m → (∀ a, keeps_db (k a)) → keeps_db (m ≫= k).
Proof.
  intros Hm Hk w. unfold mbind, M_bind. specialize (Hm w).
  destruct (m w) as [[a|e] w1]; simpl in *; [|done].
  by rewrite Hk.
Qed.

Lemma keeps_db_find c q : keeps_db (find c q).
Proof. done. Qed.

Lemma keeps_db_find_sorted env c q field : keeps_db (find_sorted env c q field).
Proof. done. Qed.

Lemma keeps_db_findOne c q : keeps_db (findOne c q).
Proof. done. Qed.

Lemma keeps_db_Promise_all {A} (ps : list (M A)) :
  Forall keeps_db ps → keeps_db (Promise_all ps).
Proof.
  induction 1 as [|p ps Hp _ IH]; intros w; simpl; [done|].
  specialize (Hp w). destruct (p w) as [r w1]. specialize (IH w1).
  destruct (Promise_all ps w1) as [rs w2]. simpl in *. congruence.
Qed.

Lemma try_catch_keeps_db m h w : keeps_db m → db (try_catch m h w).2 = db w.
Proof.
  intros Hm. unfold try_catch. specialize (Hm w). by destruct (m w) as [[r|e] w1].
Qed.

Ltac keeps :=
  repeat first
    [ apply keeps_db_ret | apply keeps_db_lift | apply keeps_db_find
    | apply keeps_db_find_sorted | apply keeps_db_findOne
    | apply keeps_db_bind; [|intros ?]
    | match goal with |- keeps_db (if ?b then _ else _) => destruct b end
    | match goal with |- keeps_db (match ?x with _ => _ end) => destruct x end ].

Lemma get_properties_keeps w : db (get_properties w).2 = db w.
Proof. apply try_catch_keeps_db. keeps. Qed.

Lemma get_my_properties_keeps email w : db (get_my_properties email w).2 = db w.
Proof. apply try_catch_keeps_db. keeps. Qed.

Lemma get_properties_id_keeps id w : db (get_properties_id id w).2 = db w.
Proof. apply try_catch_keeps_db. keeps. Qed.

Lemma get_my_property_ratings_keeps env email w :
  db (get_my_property_ratings env email w).2 = db w.
Proof. apply try_catch_keeps_db. keeps. Qed.

Lemma get_my_ratings_keeps env email w : db (get_my_ratings env email w).2 = db w.
Proof.
  apply try_catch_keeps_db. keeps.
  apply keeps_db_Promise_all, Forall_fmap, Forall_forall. intros rating _. keeps.
Qed.

Lemma get_properties_id_reviews_keeps env id w :
  db (get_properties_id_reviews env id w).2 = db w.
Proof. apply try_catch_keeps_db. keeps. Qed.

Lemma get_testimonials_keeps env w : db (get_testimonials env w).2 = db w.
Proof. apply try_catch_keeps_db. keeps. Qed.

Lemma get_testimonials_user_keeps email w : db (get_testimonials_user email w).2 = db w.
Proof. apply try_catch_keeps_db. keeps. Qed.

(** ** Inserts *)

(** The document [insertOne] stores for [d]. *)
Lemma insertOne_run env c d w :
  insertOne env c d w =
    let d' := if truthy_id (d !! "_id") then d
              else <["_id" := VOid (generated env)]> d in
    let log := calls w ++ [call_insertOne c d] in
    if existsb (λ x, bool_decide (x !! "_id" = d' !! "_id")) (documents c (db w))
    then (Throw (MongoServerError duplicate_key), mkWorld (db w) log)
    else (Ok (<["acknowledged" := VBool true]>
                (<["insertedId" := serialize (d' !! "_id")]> ∅)),
          mkWorld (with_documents c (documents c (db w) ++ [d']) (db w)) log).
Proof.
  unfold insertOne. run. by destruct (existsb _ _).
Qed.

Lemma insertOne_fresh (d' : obj) (l : list obj) :
  existsb (λ x, bool_decide (x !! "_id" = d' !! "_id")) l = false →
  d' !! "_id" ∉ (.!! "_id") <$> l.
Proof.
  intros He (x & Hx & Hin)%list_elem_of_fmap.
  assert (existsb (λ x, bool_decide (x !! "_id" = d' !! "_id")) l = true) as Ht.
  { apply existsb_elem_of. exists x. split; [done|]. by apply bool_decide_eq_true. }
  congruence.
Qed.

Lemma reviewData_lookup env id body k :
  reviewData env id body !! k =
    if decide (k = "property_id") then Some (VStr id)
    else if decide (k = "rating") then Some (serialize (body !! "rating"))
    else if decide (k = "review_text") then Some (serialize (body !! "review_text"))
    else if decide (k = "reviewer_email") then Some (serialize (body !! "reviewer_email"))
    else if decide (k = "reviewer_name") then Some (serialize (body !! "reviewer_name"))
    else if decide (k = "created_at") then Some (VStr (toISOString env))
    else None.
Proof. unfold reviewData, object. simpl. repeat case_decide; by simplify_map_eq. Qed.

Lemma resolve_field k (d : obj) : resolve [k] (VObj d) = d !! k.
Proof. simpl. by destruct (d !! k). Qed.

Lemma matches_review_pair id email d :
  matches [Equals ["property_id"] (VStr id); Equals ["reviewer_email"] email] d = true ↔
  serialize (d !! "property_id") = VStr id ∧ serialize (d !! "reviewer_email") = email.
Proof.
  unfold matches, forallb, holds. rewrite !resolve_field, andb_true_r, andb_true_iff.
  by rewrite !bool_decide_eq_true.
Qed.

(** The filter and the stored document of POST /properties/:id/reviews. *)
Lemma post_properties_id_reviews_run env id req w :
  post_properties_id_reviews env id req w =
    let q := [Equals ["property_id"] (VStr id);
              Equals ["reviewer_email"] (serialize (body req !! "reviewer_email"))] in
    let data := reviewData env id (body req) in
    let d' := <["_id" := VOid (generated env)]> data in
    let log := calls w ++ [call_findOne reviewsCollection q] in
    match List.find (matches q) (reviews (db w)) with
    | Some _ =>
        (json 400 (object [("message", VStr "You have already reviewed this property")]),
         mkWorld (db w) log)
    | None =>
        if existsb (λ x, bool_decide (x !! "_id" = Some (VOid (generated env))))
             (reviews (db w))
        then (failed "Failed to add review" (MongoServerError duplicate_key),
              mkWorld (db w) (log ++ [call_insertOne reviewsCollection data]))
        else (json 201 (object [("message", VStr "Review added successfully");
                                ("result", VObj (<["acknowledged" := VBool true]>
                                   (<["insertedId" := VOid (generated env)]> ∅)))]),
              mkWorld (with_documents reviewsCollection (reviews (db w) ++ [d']) (db w))
                      (log ++ [call_insertOne reviewsCollection data]))
    end.
Proof.
  unfold post_properties_id_reviews, try_catch, mbind, M_bind.
  unfold findOne at 1. run.
  destruct (List.find _ _); [done|].
  rewrite insertOne_run. cbn zeta.
  assert (reviewData env id (body req) !! "_id" = None) as Hnone
    by (by rewrite reviewData_lookup).
  rewrite Hnone. cbn [truthy_id]. rewrite lookup_insert_eq. cbn [documents db].
  by destruct (existsb _ _).
Qed.

(** ** One request, one step of the database *)

Lemma review_key_set (set d : obj) :
  set !! "property_id" = None → set !! "reviewer_email" = None →
  review_key (set ∪ d) = review_key d.
Proof. intros H1 H2. unfold review_key. by rewrite !lookup_union_r. Qed.

Lemma db_step_insertOne env c d w h k :
  (c = reviewsCollection →
   review_key (if truthy_id (d !! "_id") then d
               else <["_id" := VOid (generated env)]> d) ∉ review_key <$> reviews (db w)) →
  (∀ r, keeps_db (k r)) →
  db_step (db w) (db (try_catch (insertOne env c d ≫= k) h w).2).
Proof.
  intros Hkey Hk. unfold try_catch, mbind, M_bind. rewrite insertOne_run. cbn zeta.
  destruct (existsb _ _) eqn:He; [apply step_none|].
  match goal with |- context [k ?r ?w'] =>
    pose proof (Hk r w') as Hdb; destruct (k r w') as [[r'|e] w2] end;
    simpl in *; rewrite Hdb; apply step_insert; auto using insertOne_fresh.
Qed.

Lemma db_step_updateOne c oid set w h k :
  set !! "_id" = None →
  (c = reviewsCollection →
   set !! "property_id" = None ∧ set !! "reviewer_email" = None) →
  (∀ n, keeps_db (k n)) →
  db_step (db w) (db (try_catch (updateOne c (by_id oid) set ≫= k) h w).2).
Proof.
  intros Hid Hkey Hk. unfold try_catch, mbind, M_bind, updateOne. run.
  match goal with |- context [k ?r ?w'] =>
    pose proof (Hk r w') as Hdb; destruct (k r w') as [[r'|e] w2] end;
    simpl in *; rewrite Hdb; apply step_update;
    try (intros d; by rewrite lookup_union_r);
    intros Hc d; destruct (Hkey Hc); by apply review_key_set.
Qed.

Lemma db_step_deleteOne c oid w h k :
  (∀ n, keeps_db (k n)) →
  db_step (db w) (db (try_catch (deleteOne c (by_id oid) ≫= k) h w).2).
Proof.
  intros Hk. unfold try_catch, mbind, M_bind, deleteOne. run.
  match goal with |- context [k ?r ?w'] =>
    pose proof (Hk r w') as Hdb; destruct (k r w') as [[r'|e] w2] end;
    simpl in *; rewrite Hdb; apply step_delete.
Qed.

Lemma put_properties_id_step id req w :
  db_step (db w) (db (put_properties_id id req w).2).
Proof.
  unfold put_properties_id.
  destruct (ObjectId.isValid id) eqn:Hid; cbn [negb]; [|apply step_none].
  rewrite (new_valid _ Hid).
  apply (db_step_updateOne propertiesCollection); [apply lookup_delete_eq|done|].
  intros n. keeps.
Qed.

Lemma delete_properties_id_step id w :
  db_step (db w) (db (delete_properties_id id w).2).
Proof.
  unfold delete_properties_id.
  destruct (ObjectId.isValid id) eqn:Hid; cbn [negb]; [|apply step_none].
  rewrite (new_valid _ Hid).
  apply (db_step_deleteOne propertiesCollection). intros n. keeps.
Qed.

Lemma put_reviews_id_step env id req w :
  db_step (db w) (db (put_reviews_id env id req w).2).
Proof.
  unfold put_reviews_id.
  destruct (ObjectId.isValid id) eqn:Hid; cbn [negb]; [|apply step_none].
  rewrite (new_valid _ Hid).
  apply (db_step_updateOne reviewsCollection);
    [by rewrite review_set_lookup | by rewrite !review_set_lookup | intros n; keeps].
Qed.

Lemma delete_reviews_id_step id w :
  db_step (db w) (db (delete_reviews_id id w).2).
Proof.
  unfold delete_reviews_id.
  destruct (ObjectId.isValid id) eqn:Hid; cbn [negb]; [|apply step_none].
  rewrite (new_valid _ Hid).
  apply (db_step_deleteOne reviewsCollection). intros n. keeps.
Qed.

Lemma put_testimonials_id_step env id req w :
  db_step (db w) (db (put_testimonials_id env id req w).2).
Proof.
  unfold put_testimonials_id.
  destruct (ObjectId.isValid id) eqn:Hid.
  - rewrite (new_valid _ Hid).
    apply (db_step_updateOne testimonialsCollection); [|done|intros n; keeps].
    rewrite lookup_insert_ne by done. apply lookup_delete_eq.
  - rewrite (new_invalid _ Hid). apply step_none.
Qed.

Lemma delete_testimonials_id_step id w :
  db_step (db w) (db (delete_testimonials_id id w).2).
Proof.
  unfold delete_testimonials_id.
  destruct (ObjectId.isValid id) eqn:Hid.
  - rewrite (new_valid _ Hid).
    apply (db_step_deleteOne testimonialsCollection). intros n. keeps.
  - rewrite (new_invalid _ Hid). apply step_none.
Qed.

Lemma post_properties_step env req w :
  db_step (db w) (db (post_properties env req w).2).
Proof.
  unfold post_properties. apply (db_step_insertOne _ propertiesCollection); [done|].
  intros r. keeps.
Qed.

Lemma post_testimonials_step env req w :
  db_step (db w) (db (post_testimonials env req w).2).
Proof.
  unfold post_testimonials, try_catch, mbind, M_bind.
  unfold findOne at 1. run.
  destruct (List.find _ _); [apply step_none|].
  match goal with |- context [insertOne ?e ?c ?d ?w'] =>
    pose proof (db_step_insertOne e c d w' failed_error
      (λ result, mret (json 201 (object
         [("message", VStr "Testimonial submitted successfully");
          ("insertedId", serialize (result !! "insertedId"))])))) as H end.
  unfold try_catch, mbind, M_bind in H. simpl in H. apply H; [done|].
  intros r. keeps.
Qed.

Lemma post_properties_id_reviews_step env id req w :
  db_step (db w) (db (post_properties_id_reviews env id req w).2).
Proof.
  rewrite post_properties_id_reviews_run. cbn zeta.
  destruct (List.find _ _) eqn:Hf; [apply step_none|].
  destruct (existsb _ _) eqn:He; [apply step_none|].
  apply (step_insert _ reviewsCollection).
  - rewrite lookup_insert_eq. intros (x & Hx & Hin)%list_elem_of_fmap.
    assert (existsb (λ x, bool_decide (x !! "_id" = Some (VOid (generated env))))
              (reviews (db w)) = true) as Ht; [|cbn [documents] in *; congruence].
    apply existsb_elem_of. exists x. split; [done|]. by apply bool_decide_eq_true.
  - intros _ (x & Hx & Hin)%list_elem_of_fmap.
    apply list_elem_of_In in Hin. pose proof (find_none _ _ Hf _ Hin) as Hm.
    assert (matches
              [Equals ["property_id"] (VStr id);
               Equals ["reviewer_email"] (serialize (body req !! "reviewer_email"))] x
            = true) as Ht; [|congruence].
    apply matches_review_pair. unfold review_key in Hx.
    rewrite !lookup_insert_ne, !reviewData_lookup in Hx by done.
    simpl in Hx. injection Hx as <- <-. done.
Qed.

Lemma handler_step env req w : db_step (db w) (db (handler env req w).2).
Proof.
  unfold handler. destruct (route req).
  - rewrite get_properties_keeps. apply step_none.
  - rewrite get_properties_id_keeps. apply step_none.
  - rewrite get_my_properties_keeps. apply step_none.
  - apply post_properties_step.
  - apply put_properties_id_step.
  - apply delete_properties_id_step.
  - rewrite get_my_property_ratings_keeps. apply step_none.
  - rewrite get_my_ratings_keeps. apply step_none.
  - rewrite get_properties_id_reviews_keeps. apply step_none.
  - apply post_properties_id_reviews_step.
  - apply put_reviews_id_step.
  - apply delete_reviews_id_step.
  - rewrite get_testimonials_keeps. apply step_none.
  - rewrite get_testimonials_user_keeps. apply step_none.
  - apply post_testimonials_step.
  - apply put_testimonials_id_step.
  - apply delete_testimonials_id_step.
  - apply step_none.
Qed.

Lemma app_step env req w : db_step (db w) (db (app env req w).2).
Proof.
  destruct (app_cases env req w) as [[_ ->] | ->];
    [apply step_none | apply handler_step].
Qed.

(** ** Invariants of the database *)

Lemma reviews_with_documents c l db :
  reviews (with_documents c l db) = if decide (c = reviewsCollection) then l else reviews db.
Proof. by destruct c. Qed.

Lemma db_step_one_review_per_pair db db' :
  db_step db db' → one_review_per_pair db → one_review_per_pair db'.
Proof.
  unfold one_review_per_pair.
  intros [|c d Hid Hkey|c p f Hid Hkey|c p] Hinv; [done|..];
    rewrite reviews_with_documents; case_decide as Hc; try done; subst c;
    cbn [documents].
  - rewrite fmap_app. apply NoDup_app. split_and!; [done| |apply NoDup_singleton].
    intros k Hk ->%list_elem_of_singleton. by apply Hkey.
  - by rewrite update_first_fmap by auto.
  - eapply sublist_NoDup; [exact Hinv|]. apply fmap_sublist, delete_first_sublist.
Qed.

Lemma db_step_unique_ids db db' :
  db_step db db' →
  (∀ c, unique_ids (documents c db)) → ∀ c, unique_ids (documents c db').
Proof.
  intros [|c d Hid Hkey|c p f Hid Hkey|c p] Hinv c'; [done|..];
    (destruct (decide (c = c')) as [<-|Hne];
     [rewrite documents_with_documents
     |by rewrite documents_with_documents_ne]).
  - unfold unique_ids. rewrite fmap_app. apply NoDup_app.
    split_and!; [apply Hinv| |apply NoDup_singleton].
    intros k Hk ->%list_elem_of_singleton. by apply Hid.
  - unfold unique_ids. rewrite update_first_fmap by auto. apply Hinv.
  - eapply unique_ids_sublist; [apply delete_first_sublist|apply Hinv].
Qed.

Lemma serve_one_review_per_pair l w :
  one_review_per_pair (db w) → one_review_per_pair (db (serve l w)).
Proof.
  revert w. induction l as [|[env req] l IH]; intros w Hinv; simpl; [done|].
  apply IH. eapply db_step_one_review_per_pair; [apply app_step|done].
Qed.

Lemma serve_unique_ids l w :
  (∀ c, unique_ids (documents c (db w))) →
  ∀ c, unique_ids (documents c (db (serve l w))).
Proof.
  revert w. induction l as [|[env req] l IH]; intros w Hinv; simpl; [done|].
  apply IH. eapply db_step_unique_ids; [apply app_step|done].
Qed.

(** Starting from the empty database, whatever requests are served, both
    invariants hold. *)
Lemma served_from_empty l :
  one_review_per_pair (db (serve l empty_world)) ∧
  ∀ c, unique_ids (documents c (db (serve l empty_world))).
Proof.
  split.
  - apply serve_one_review_per_pair. constructor.
  - apply serve_unique_ids. intros []; constructor.
Qed.

(** ** Creating reviews *)





(** ** Enriched listings *)

Lemma array_map_Ok {A B} (f : A → result B) l l' :
  array_map f l = Ok l' → Forall2 (λ x y, f x = Ok y) l l'.
Proof.
  revert l'. induction l as [|x l IH]; intros l'; simpl.
  - intros [= <-]. constructor.
  - destruct (f x) as [y|e] eqn:Hx; [|done].
    destruct (array_map f l) as [ys|e]; [|done].
    intros [= <-]. constructor; auto.
Qed.

Lemma array_find_Some {A} (p : A → result bool) l x :
  array_find p l = Ok (Some x) → x ∈ l ∧ p x = Ok true.
Proof.
  induction l as [|y l IH]; simpl; [done|].
  destruct (p y) as [[]|e] eqn:Hy; [| |done].
  - intros [= <-]. split; [apply list_elem_of_here|done].
  - intros [Hin Hp]%IH. split; [by apply list_elem_of_further|done].
Qed.

Lemma array_find_None {A} (p : A → result bool) l :
  array_find p l = Ok None → Forall (λ x, p x = Ok false) l.
Proof.
  induction l as [|y l IH]; simpl; [constructor|].
  destruct (p y) as [[]|e] eqn:Hy; [done| |done].
  intros H. constructor; auto.
Qed.

Lemma array_find_Throw {A} (p : A → result bool) l e :
  array_find p l = Throw e → ∃ x, x ∈ l ∧ p x = Throw e.
Proof.
  induction l as [|y l IH]; simpl; [done|].
  destruct (p y) as [[]|e'] eqn:Hy; [done| |].
  - intros (x & Hin & Hx)%IH. exists x. split; [by apply list_elem_of_further|done].
  - intros [= <-]. exists y. split; [apply list_elem_of_here|done].
Qed.

Lemma or_else_shows (x : option value) (d : value) :
  (truthy x = true → Some (or_else x d) = x) ∧
  (truthy x = false → or_else x d = d).
Proof.
  unfold or_else. destruct x as [v|]; [|done].
  destruct (truthy (Some v)); split; congruence.
Qed.

Lemma with_property_details_extends rating property :
  extends (with_property_details rating property) rating.
Proof.
  intros k Hn Hi. unfold with_property_details.
  by rewrite !lookup_insert_ne.
Qed.

Lemma with_property_details_Some rating p :
  shows (with_property_details rating (Some p)) p "property_name"
    (VStr "Unknown Property") ∧
  shows (with_property_details rating (Some p)) p "property_image" (VStr "").
Proof.
  unfold shows, with_property_details. simpl.
  rewrite lookup_insert_eq, lookup_insert_ne, lookup_insert_eq by done.
  destruct (or_else_shows (p !! "property_name") (VStr "Unknown Property")).
  destruct (or_else_shows (p !! "property_image") (VStr "")).
  split_and!; intros Ht; auto; f_equal; auto.
Qed.

Lemma with_property_details_None rating :
  with_property_details rating None !! "property_name" = Some (VStr "Unknown Property") ∧
  with_property_details rating None !! "property_image" = Some (VStr "").
Proof.
  unfold with_property_details. simpl.
  by rewrite lookup_insert_eq, lookup_insert_ne, lookup_insert_eq.
Qed.

Lemma holds_posted_by email p :
  matches [Equals ["posted_by"; "email"] (VStr email)] p = true ↔ posted_by email p.
Proof.
  unfold matches, forallb, holds, posted_by.
  rewrite andb_true_r, bool_decide_eq_true.
  destruct (resolve _ _) as [v|]; simpl; naive_solver.
Qed.

Lemma get_my_property_ratings_run env email w :
  get_my_property_ratings env email w =
    let q := [Equals ["posted_by"; "email"] (VStr email)] in
    let userProperties := List.filter (matches q) (properties (db w)) in
    let log := calls w ++ [call_find propertiesCollection q None] in
    if bool_decide (length userProperties = 0%nat)
    then (send (VArr []), mkWorld (db w) log)
    else
      match array_map (λ prop, toString (prop !! "_id")) userProperties with
      | Throw e => (failed "Failed to fetch ratings" e, mkWorld (db w) log)
      | Ok propertyIds =>
          let q' := [IsIn ["property_id"] (VStr <$> propertyIds)] in
          let ratings :=
            merge_sort (by_field_desc env "created_at")
              (List.filter (matches q') (reviews (db w))) in
          (match array_map
                   (λ rating,
                      match array_find (is_property_of rating) userProperties with
                      | Throw e => Throw e
                      | Ok property => Ok (with_property_details rating property)
                      end) ratings with
           | Throw e => failed "Failed to fetch ratings" e
           | Ok l => send (VArr (VObj <$> l))
           end,
           mkWorld (db w) (log ++ [call_find reviewsCollection q' (Some "created_at")]))
      end.
Proof.
  unfold get_my_property_ratings. run.
  destruct (bool_decide _); [done|].
  destruct (array_map _ _); [|done]. simpl.
  by destruct (array_map _ _).
Qed.

Lemma Forall2_elem_of_r {A B} (P : A → B → Prop) l l' y :
  Forall2 P l l' → y ∈ l' → ∃ x, x ∈ l ∧ P x y.
Proof.
  induction 1 as [|x y' l l' Hxy _ IH]; [by intros ?%elem_of_nil|].
  intros [->|Hin]%elem_of_cons.
  - exists x. split; [apply list_elem_of_here|done].
  - destruct (IH Hin) as (x' & Hx' & HP). exists x'.
    split; [by apply list_elem_of_further|done].
Qed.

Lemma Forall2_elem_of_l {A B} (P : A → B → Prop) l l' x :
  Forall2 P l l' → x ∈ l → ∃ y, y ∈ l' ∧ P x y.
Proof.
  induction 1 as [|x' y l l' Hxy _ IH]; [by intros ?%elem_of_nil|].
  intros [->|Hin]%elem_of_cons.
  - exists y. split; [apply list_elem_of_here|done].
  - destruct (IH Hin) as (y' & Hy' & HP). exists y'.
    split; [by apply list_elem_of_further|done].
Qed.

Lemma elem_of_List_filter {A} (f : A → bool) l x :
  x ∈ List.filter f l ↔ x ∈ l ∧ f x = true.
Proof. by rewrite !list_elem_of_In, filter_In. Qed.

Lemma holds_IsIn_strings (ids : list string) (r : obj) :
  matches [IsIn ["property_id"] (VStr <$> ids)] r = true →
  ∃ s, s ∈ ids ∧ r !! "property_id" = Some (VStr s).
Proof.
  unfold matches, forallb, holds. rewrite resolve_field, andb_true_r, bool_decide_eq_true.
  intros (s & Hs & Hin)%list_elem_of_fmap. exists s. split; [done|].
  by destruct (r !! "property_id") as [v|]; simpl in *; subst.
Qed.

(** The in-memory join of GET /my-property-ratings/:email always finds the
    property: every review the [$in] query returns names, by the string
    form of its identifier, one of the owner's properties. *)
Lemma join_finds_property userProperties propertyIds rating :
  array_map (λ prop, toString (prop !! "_id")) userProperties = Ok propertyIds →
  matches [IsIn ["property_id"] (VStr <$> propertyIds)] rating = true →
  ∃ p s,
    array_find (is_property_of rating) userProperties = Ok (Some p) ∧
    p ∈ userProperties ∧ toString (p !! "_id") = Ok s ∧
    rating !! "property_id" = Some (VStr s).
Proof.
  intros Hids%array_map_Ok (s & Hs & Hr)%holds_IsIn_strings.
  destruct (Forall2_elem_of_r _ _ _ _ Hids Hs) as (p0 & Hp0 & Hs0).
  destruct (array_find _ _) as [[p|]|e] eqn:Hf.
  - apply array_find_Some in Hf as [Hp Hm]. unfold is_property_of in Hm.
    destruct (toString (p !! "_id")) as [s'|] eqn:Hs'; [|done].
    injection Hm as Hm%bool_decide_eq_true. by exists p, s'.
  - apply array_find_None in Hf. rewrite Forall_forall in Hf.
    specialize (Hf p0 Hp0). unfold is_property_of in Hf. rewrite Hs0 in Hf.
    injection Hf as Hf%bool_decide_eq_false. done.
  - apply array_find_Throw in Hf as (x & Hx & He).
    destruct (Forall2_elem_of_l _ _ _ _ Hids Hx) as (s' & _ & Hs').
    unfold is_property_of in He. by rewrite Hs' in He.
Qed.

Lemma my_property_ratings_entries env email w entries :
  payload (get_my_property_ratings env email w).1 = VArr entries →
  status (get_my_property_ratings env email w).1 = 200 ∧
  Forall (joined_entry email (db w)) entries.
Proof.
  rewrite get_my_property_ratings_run. cbn zeta.
  destruct (bool_decide _); [by intros [= <-]|].
  destruct (array_map _ (List.filter _ _)) as [propertyIds|e] eqn:Hids; [|done].
  cbn [fst].
  destruct (array_map _ (merge_sort _ _)) as [l|e] eqn:Hl; [|done].
  intros [= <-]. split; [done|].
  apply Forall_fmap, Forall_forall. intros e He.
  destruct (Forall2_elem_of_r _ _ _ _ (array_map_Ok _ _ _ Hl) He) as (rating & Hr & Hy).
  rewrite merge_sort_Permutation in Hr. apply elem_of_List_filter in Hr as [Hr Hm].
  destruct (join_finds_property _ _ _ Hids Hm) as (p & s & Hf & Hp & Hs & Hpid).
  rewrite Hf in Hy. injection Hy as <-.
  apply elem_of_List_filter in Hp as [Hp Ho%holds_posted_by].
  exists (with_property_details rating (Some p)), rating, p, s.
  destruct (with_property_details_Some rating p).
  split_and!; auto using with_property_details_extends.
Qed.

Lemma bind_run {A B} (m : M A) (k : A → M B) w :
  (m ≫= k) w =
    match m w with
    | (Ok a, w') => k a w'
    | (Throw e, w') => (Throw e, w')
    end.
Proof. done. Qed.

Lemma find_run c q w :
  find c q w =
    (Ok (List.filter (matches q) (documents c (db w))),
     mkWorld (db w) (calls w ++ [call_find c q None])).
Proof. done. Qed.

Lemma Promise_all_details env ratings w :
  (Promise_all
     ((λ rating,
         oid ← lift (new_ObjectId env (rating !! "property_id"));
         property ← findOne propertiesCollection (by_id oid);
         mret (with_property_details rating property)) <$> ratings) w).1 =
  array_map (details_by_lookup env (properties (db w))) ratings.
Proof.
  match goal with |- context [Promise_all (?f <$> _)] => set (cb := f) end.
  assert (Hcb : ∀ rating w,
    cb rating w =
      match new_ObjectId env (rating !! "property_id") with
      | Ok oid =>
          (Ok (with_property_details rating
                 (List.find (matches (by_id oid)) (properties (db w)))),
           mkWorld (db w) (calls w ++ [call_findOne propertiesCollection (by_id oid)]))
      | Throw e => (Throw e, w)
      end).
  { intros rating w'. unfold cb. run. by destruct (new_ObjectId _ _). }
  clearbody cb. revert w.
  induction ratings as [|rating ratings IH]; intros w; [done|].
  rewrite fmap_cons. cbn [Promise_all array_map]. rewrite Hcb.
  unfold details_by_lookup at 1.
  destruct (new_ObjectId env (rating !! "property_id")) as [oid|e].
  - match goal with |- context [Promise_all ?ps ?w'] =>
      pose proof (IH w') as H; cbn [db] in H; rewrite <- H;
      destruct (Promise_all ps w') as [rs w2] end.
    by destruct rs.
  - by destruct (Promise_all _ _).
Qed.

Lemma get_my_ratings_run env email w :
  (get_my_ratings env email w).1 =
    match array_map (details_by_lookup env (properties (db w)))
            (List.filter (matches [Equals ["reviewer_email"] (VStr email)])
               (reviews (db w))) with
    | Ok l => send (VArr (VObj <$> l))
    | Throw e => failed "Failed to fetch ratings" e
    end.
Proof.
  unfold get_my_ratings, try_catch.
  rewrite bind_run, find_run. cbv iota beta. rewrite bind_run.
  match goal with |- context [Promise_all ?ps ?w'] =>
    pose proof (Promise_all_details env
      (List.filter (matches [Equals ["reviewer_email"] (VStr email)]) (reviews (db w)))
      w') as H end.
  cbn [db documents] in *. rewrite <- H.
  destruct (Promise_all _ _) as [rs w2]. by destruct rs.
Qed.

Lemma details_by_lookup_Ok env props rating e :
  details_by_lookup env props rating = Ok e →
  ∃ oid,
    new_ObjectId env (rating !! "property_id") = Ok oid ∧ extends e rating ∧
    ((∃ p, p ∈ props ∧ has_id oid p ∧
           shows e p "property_name" (VStr "Unknown Property") ∧
           shows e p "property_image" (VStr "")) ∨
     (Forall (λ p, ¬ has_id oid p) props ∧
      e !! "property_name" = Some (VStr "Unknown Property") ∧
      e !! "property_image" = Some (VStr ""))).
Proof.
  unfold details_by_lookup.
  destruct (new_ObjectId env _) as [oid|]; [|done]. intros [= <-].
  exists oid. split_and!; [done|apply with_property_details_extends|].
  destruct (List.find _ _) as [p|] eqn:Hf.
  - left. apply find_some in Hf as [Hin Hm%matches_by_id].
    exists p. rewrite list_elem_of_In.
    destruct (with_property_details_Some rating p). by split_and!.
  - right. destruct (with_property_details_None rating). split_and!; [|done..].
    apply Forall_forall. intros p Hp%list_elem_of_In Hid%matches_by_id.
    by rewrite (find_none _ _ Hf _ Hp) in Hid.
Qed.

Lemma my_ratings_entries env email w entries :
  payload (get_my_ratings env email w).1 = VArr entries →
  status (get_my_ratings env email w).1 = 200 ∧
  Forall2 (looked_up_entry env (db w))
    (List.filter (matches [Equals ["reviewer_email"] (VStr email)]) (reviews (db w)))
    entries.
Proof.
  rewrite get_my_ratings_run.
  destruct (array_map _ _) as [l|e] eqn:Hl; [|done].
  intros [= <-]. split; [done|].
  apply Forall2_fmap_r. eapply Forall2_impl; [exact (array_map_Ok _ _ _ Hl)|].
  intros rating e (oid & Hoid & He & Hcase)%details_by_lookup_Ok.
  exists e, oid. split_and!; [done..|].
  destruct Hcase as [?|(Hnone & ? & ?)]; [by left|right].
  split_and!; [|done..]. intros (p & Hp & Hid).
  rewrite Forall_forall in Hnone. by apply (Hnone p).
Qed.

(** A review whose [property_id] is not a well-formed identifier makes
    GET /my-ratings/:email of its reviewer fail as a whole. *)
Lemma my_ratings_malformed_property_id env email w rating s :
  rating ∈ reviews (db w) →
  rating !! "reviewer_email" = Some (VStr email) →
  rating !! "property_id" = Some (VStr s) →
  ObjectId.isValid s = false →
  status (get_my_ratings env email w).1 = 500.
Proof.
  intros Hin He Hp Hs. rewrite get_my_ratings_run.
  destruct (array_map _ _) as [l|e] eqn:Hl; [|done]. exfalso.
  apply array_map_Ok in Hl.
  assert (rating ∈ List.filter (matches [Equals ["reviewer_email"] (VStr email)])
                     (reviews (db w))) as Hr.
  { apply elem_of_List_filter. split; [done|].
    unfold matches, forallb, holds. rewrite resolve_field, He, andb_true_r.
    by apply bool_decide_eq_true. }
  destruct (Forall2_elem_of_l _ _ _ _ Hl Hr) as (y & _ & Hy).
  unfold details_by_lookup in Hy. rewrite Hp in Hy. cbn [new_ObjectId] in Hy.
  by rewrite (new_invalid _ Hs) in Hy.
Qed.

Lemma reviews_by_elem_of email d rating :
  rating ∈ reviews_by email d ↔
  rating ∈ reviews d ∧ serialize (rating !! "reviewer_email") = VStr email.
Proof.
  unfold reviews_by. rewrite elem_of_List_filter.
  unfold matches, forallb, holds. by rewrite resolve_field, andb_true_r, bool_decide_eq_true.
Qed.

(** C3, as the code has it: each entry of the two enriched listings is a
    stored review plus [property_name] and [property_image].  On
    /my-property-ratings/:email the details are those of the owner's
    property whose identifier, as a string, equals the review's
    [property_id]; on /my-ratings/:email, of the property found under the
    review's [property_id] read as an identifier.  A detail is the
    property's field when that field is truthy, and the fallback
    ("Unknown Property", "") when the field is missing or falsy or, on
    /my-ratings/:email, when no property carries the identifier. *)
Theorem enriched_entries_show_property_details env req w email entries :
  passes_guard env req →
  payload (app env req w).1 = VArr entries →
  (route req = GET_my_property_ratings email →
   status (app env req w).1 = 200 ∧ Forall (joined_entry email (db w)) entries) ∧
  (route req = GET_my_ratings email →
   status (app env req w).1 = 200 ∧
   Forall2 (looked_up_entry env (db w)) (reviews_by email (db w)) entries).
Proof.
  intros Hadm. rewrite (app_passes_guard _ _ _ Hadm). unfold handler.
  intros Hp. split; intros Hroute; rewrite Hroute in *.
  - by apply my_property_ratings_entries.
  - by apply my_ratings_entries.
Qed.

Lemma enriched_entries_show_property_details_witness :
  status (app sample_env (sample_request (GET_my_ratings "guest@example.com") ∅)
            sample_world).1 = 200 ∧
  Forall2 (looked_up_entry sample_env (db sample_world))
    (reviews_by "guest@example.com" (db sample_world))
    [VObj (with_property_details sample_review (Some sample_property))].
Proof.
  apply (enriched_entries_show_property_details sample_env
           (sample_request (GET_my_ratings "guest@example.com") ∅) sample_world
           "guest@example.com"
           [VObj (with_property_details sample_review (Some sample_property))]
           (sample_passes_guard _ _)).
  - by vm_compute.
  - reflexivity.
Defined.

(** C3 does not hold as stated: the property the review names exists and
    has the [property_name] [""], yet the entry of /my-ratings/:email shows
    ["Unknown Property"]. *)
Lemma enriched_name_is_not_the_property_name :
  ∃ e,
    payload (app sample_env (sample_request (GET_my_ratings "guest@example.com") ∅)
               unnamed_world).1 = VArr [VObj e] ∧
    e !! "property_id" = Some (VStr other_id) ∧
    properties (db unnamed_world) = [unnamed_property] ∧
    has_id (ObjectId.make other_id) unnamed_property ∧
    unnamed_property !! "property_name" = Some (VStr "") ∧
    e !! "property_name" = Some (VStr "Unknown Property") ∧
    e !! "property_name" ≠ unnamed_property !! "property_name".
Proof.
  exists (with_property_details sample_review (Some unnamed_property)).
  split_and!; vm_compute; first [reflexivity | discriminate].
Qed.

(** ** The owner's listing *)

Lemma no_property_posted_by email (l : list obj) :
  (∀ p, p ∈ l → ¬ posted_by email p) →
  List.filter (matches [Equals ["posted_by"; "email"] (VStr email)]) l = [].
Proof.
  intros H. induction l as [|p l IH]; [done|]. cbn [List.filter].
  destruct (matches _ p) eqn:Hm.
  - apply holds_posted_by in Hm. destruct (H p); [apply list_elem_of_here|done].
  - apply IH. intros p' Hp'. apply H. by apply list_elem_of_further.
Qed.

(** C10, as the code has it: every entry of /my-property-ratings/:email is
    a review whose [property_id] is the string form of the identifier of a
    property posted by that email, and the join always finds that
    property; so the entry shows the fallback for a detail only when the
    property's own field is missing or falsy, never because the property
    is absent.  When the email has posted no property the answer is the
    empty array and the only store call is the query on properties. *)
Theorem owner_listing_joins_owned_properties env req w email :
  route req = GET_my_property_ratings email →
  passes_guard env req →
  (∀ entries,
     payload (app env req w).1 = VArr entries →
     status (app env req w).1 = 200 ∧
     Forall
       (λ entry, ∃ e p s,
          entry = VObj e ∧ p ∈ properties (db w) ∧ posted_by email p ∧
          toString (p !! "_id") = Ok s ∧ e !! "property_id" = Some (VStr s) ∧
          shows e p "property_name" (VStr "Unknown Property") ∧
          shows e p "property_image" (VStr ""))
       entries) ∧
  ((∀ p, p ∈ properties (db w) → ¬ posted_by email p) →
   app env req w =
     (send (VArr []),
      mkWorld (db w)
        (calls w ++ [call_find propertiesCollection
                       [Equals ["posted_by"; "email"] (VStr email)] None]))).
Proof.
  intros Hroute Hadm. rewrite (app_passes_guard _ _ _ Hadm). unfold handler.
  rewrite Hroute. split.
  - intros entries [H200 Hall]%my_property_ratings_entries. split; [done|].
    eapply Forall_impl; [exact Hall|].
    intros entry (e & rating & p & s & -> & _ & Hext & Hp & Ho & Hs & Hpid & Hn & Hi).
    exists e, p, s. split_and!; try done. by rewrite Hext.
  - intros Hnone. rewrite get_my_property_ratings_run. cbn zeta.
    by rewrite (no_property_posted_by _ _ Hnone).
Qed.

Lemma owner_listing_joins_owned_properties_witness :
  app sample_env (sample_request (GET_my_property_ratings "nobody@example.com") ∅)
    sample_world =
  (send (VArr []),
   mkWorld (db sample_world)
     (calls sample_world ++
        [call_find propertiesCollection
           [Equals ["posted_by"; "email"] (VStr "nobody@example.com")] None])).
Proof.
  apply (owner_listing_joins_owned_properties sample_env
           (sample_request (GET_my_property_ratings "nobody@example.com") ∅)
           sample_world "nobody@example.com" eq_refl (sample_passes_guard _ _)).
  intros p ->%list_elem_of_singleton. by vm_compute.
Defined.

(** C10 does not hold as stated: the matched property has a
    [property_name] field (the empty string), and the entry still shows the
    fallback ["Unknown Property"]. *)
Lemma fallback_with_the_field_present :
  ∃ e,
    payload (app sample_env
               (sample_request (GET_my_property_ratings "owner@example.com") ∅)
               unnamed_world).1 = VArr [VObj e] ∧
    e !! "property_id" = Some (VStr other_id) ∧
    properties (db unnamed_world) = [unnamed_property] ∧
    posted_by "owner@example.com" unnamed_property ∧
    toString (unnamed_property !! "_id") = Ok other_id ∧
    unnamed_property !! "property_name" = Some (VStr "") ∧
    is_Some (unnamed_property !! "property_image") ∧
    e !! "property_name" = Some (VStr "Unknown Property").
Proof.
  exists (with_property_details sample_review (Some unnamed_property)).
  split_and!; try (vm_compute; reflexivity).
  exists (VStr "villa.jpg"). vm_compute. reflexivity.
Qed.

(** * More of the program *)

(** ** What the remaining handlers compute *)

Lemma findOne_run c q w :
  findOne c q w =
    (Ok (List.find (matches q) (documents c (db w))),
     mkWorld (db w) (calls w ++ [call_findOne c q])).
Proof. done. Qed.

Lemma find_sorted_run env c q field w :
  find_sorted env c q field w =
    (Ok (merge_sort (by_field_desc env field) (List.filter (matches q) (documents c (db w)))),
     mkWorld (db w) (calls w ++ [call_find c q (Some field)])).
Proof. done. Qed.

Lemma post_properties_run env req w :
  post_properties env req w =
    let d' := inserted env (body req) in
    let log := calls w ++ [call_insertOne propertiesCollection (body req)] in
    if existsb (λ x, bool_decide (x !! "_id" = d' !! "_id")) (properties (db w))
    then (failed "Failed to create property" (MongoServerError duplicate_key),
          mkWorld (db w) log)
    else (json 201 (object [("message", VStr "Property created successfully");
                            ("insertedId", serialize (d' !! "_id"))]),
          mkWorld (with_documents propertiesCollection (properties (db w) ++ [d']) (db w))
                  log).
Proof.
  unfold post_properties, try_catch. rewrite bind_run, insertOne_run. cbn zeta.
  fold (inserted env (body req)). cbn [documents].
  destruct (existsb _ _); [done|].
  unfold mret, M_ret. cbv iota beta.
  by rewrite lookup_insert_ne, lookup_insert_eq.
Qed.

Lemma post_testimonials_run env req w :
  post_testimonials env req w =
    let q := [Equals ["email"] (serialize (body req !! "email"))] in
    let d' := inserted env (body req) in
    let log := calls w ++ [call_findOne testimonialsCollection q] in
    match List.find (matches q) (testimonials (db w)) with
    | Some _ =>
        (json 400 (object [("error", VStr "You have already submitted a testimonial")]),
         mkWorld (db w) log)
    | None =>
        if existsb (λ x, bool_decide (x !! "_id" = d' !! "_id")) (testimonials (db w))
        then (failed_error (MongoServerError duplicate_key),
              mkWorld (db w) (log ++ [call_insertOne testimonialsCollection (body req)]))
        else (json 201 (object [("message", VStr "Testimonial submitted successfully");
                                ("insertedId", serialize (d' !! "_id"))]),
              mkWorld (with_documents testimonialsCollection
                         (testimonials (db w) ++ [d']) (db w))
                      (log ++ [call_insertOne testimonialsCollection (body req)]))
    end.
Proof.
  unfold post_testimonials, try_catch. rewrite bind_run, findOne_run. cbv iota beta.
  cbn [documents db].
  destruct (List.find _ _); [done|].
  rewrite bind_run, insertOne_run. cbn zeta.
  fold (inserted env (body req)). cbn [documents db calls].
  destruct (existsb _ _); [done|].
  unfold mret, M_ret. cbv iota beta.
  by rewrite lookup_insert_ne, lookup_insert_eq.
Qed.

Lemma put_testimonials_id_run env id req w :
  ObjectId.isValid id = true →
  put_testimonials_id env id req w =
    let q := by_id (ObjectId.make (ObjectId.lower id)) in
    let set := <["updated_at" := VStr (toISOString env)]> (delete "_id" (body req)) in
    (if existsb (matches q) (testimonials (db w))
     then json 200 (object [("message", VStr "Testimonial updated successfully")])
     else json 404 (object [("error", VStr "Testimonial not found")]),
     mkWorld
       (with_documents testimonialsCollection
          (update_first (matches q) (λ d, set ∪ d) (testimonials (db w))) (db w))
       (calls w ++ [call_updateOne testimonialsCollection q set])).
Proof.
  intros H. unfold put_testimonials_id. rewrite (new_valid _ H). run.
  unfold count_first. by destruct (existsb _ _).
Qed.

Lemma delete_testimonials_id_run id w :
  ObjectId.isValid id = true →
  delete_testimonials_id id w =
    let q := by_id (ObjectId.make (ObjectId.lower id)) in
    (if existsb (matches q) (testimonials (db w))
     then json 200 (object [("message", VStr "Testimonial deleted successfully")])
     else json 404 (object [("error", VStr "Testimonial not found")]),
     mkWorld
       (with_documents testimonialsCollection
          (delete_first (matches q) (testimonials (db w))) (db w))
       (calls w ++ [call_deleteOne testimonialsCollection q])).
Proof.
  intros H. unfold delete_testimonials_id. rewrite (new_valid _ H). run.
  unfold count_first. by destruct (existsb _ _).
Qed.

Lemma invalid_testimonial_id_run env id req w :
  ObjectId.isValid id = false →
  put_testimonials_id env id req w =
    (failed_error (BSONError ObjectId.invalid_input), w) ∧
  delete_testimonials_id id w = (failed_error (BSONError ObjectId.invalid_input), w).
Proof.
  intros H. unfold put_testimonials_id, delete_testimonials_id, try_catch.
  by rewrite !bind_run; unfold lift; rewrite (new_invalid _ H).
Qed.

(** ** Requests that change nothing *)

Lemma invalid_id_run env id req w :
  ObjectId.isValid id = false →
  db (put_properties_id id req w).2 = db w ∧
  db (delete_properties_id id w).2 = db w ∧
  db (put_reviews_id env id req w).2 = db w ∧
  db (delete_reviews_id id w).2 = db w.
Proof.
  intros H.
  unfold put_properties_id, delete_properties_id, put_reviews_id, delete_reviews_id,
    try_catch.
  by rewrite H.
Qed.

Lemma failed_handler_changes_nothing env req w :
  400 ≤ status (handler env req w).1 → db (handler env req w).2 = db w.
Proof.
  unfold handler. destruct (route req) as
    [|id|email| |id|id|email|email|id|id|id|id| |email| |id|id|].
  - by rewrite get_properties_keeps.
  - by rewrite get_properties_id_keeps.
  - by rewrite get_my_properties_keeps.
  - rewrite post_properties_run. cbn zeta.
    destruct (existsb _ _); [done|]. cbn. lia.
  - destruct (ObjectId.isValid id) eqn:Hid;
      [|intros _; by apply (invalid_id_run env id req w)].
    rewrite (put_properties_id_run _ _ _ Hid). cbn zeta.
    destruct (existsb _ _) eqn:He; [cbn; lia|]. intros _. cbn [snd db].
    by rewrite (update_first_none _ _ _ He), (with_documents_same propertiesCollection).
  - destruct (ObjectId.isValid id) eqn:Hid;
      [|intros _; by apply (invalid_id_run env id req w)].
    rewrite (delete_properties_id_run _ _ Hid). cbn zeta.
    destruct (existsb _ _) eqn:He; [cbn; lia|]. intros _. cbn [snd db].
    by rewrite (delete_first_none _ _ He), (with_documents_same propertiesCollection).
  - by rewrite get_my_property_ratings_keeps.
  - by rewrite get_my_ratings_keeps.
  - by rewrite get_properties_id_reviews_keeps.
  - rewrite post_properties_id_reviews_run. cbn zeta.
    destruct (List.find _ _); [done|].
    destruct (existsb _ _); [done|]. cbn. lia.
  - destruct (ObjectId.isValid id) eqn:Hid;
      [|intros _; by apply (invalid_id_run env id req w)].
    rewrite (put_reviews_id_run _ _ _ _ Hid). cbn zeta.
    destruct (existsb _ _) eqn:He; [cbn; lia|]. intros _. cbn [snd db].
    by rewrite (update_first_none _ _ _ He), (with_documents_same reviewsCollection).
  - destruct (ObjectId.isValid id) eqn:Hid;
      [|intros _; by apply (invalid_id_run env id req w)].
    rewrite (delete_reviews_id_run _ _ Hid). cbn zeta.
    destruct (existsb _ _) eqn:He; [cbn; lia|]. intros _. cbn [snd db].
    by rewrite (delete_first_none _ _ He), (with_documents_same reviewsCollection).
  - by rewrite get_testimonials_keeps.
  - by rewrite get_testimonials_user_keeps.
  - rewrite post_testimonials_run. cbn zeta.
    destruct (List.find _ _); [done|].
    destruct (existsb _ _); [done|]. cbn. lia.
  - destruct (ObjectId.isValid id) eqn:Hid;
      [|intros _; by rewrite (proj1 (invalid_testimonial_id_run env id req w Hid))].
    rewrite (put_testimonials_id_run _ _ _ _ Hid). cbn zeta.
    destruct (existsb _ _) eqn:He; [cbn; lia|]. intros _. cbn [snd db].
    by rewrite (update_first_none _ _ _ He), (with_documents_same testimonialsCollection).
  - destruct (ObjectId.isValid id) eqn:Hid;
      [|intros _; by rewrite (proj2 (invalid_testimonial_id_run env id req w Hid))].
    rewrite (delete_testimonials_id_run _ _ Hid). cbn zeta.
    destruct (existsb _ _) eqn:He; [cbn; lia|]. intros _. cbn [snd db].
    by rewrite (delete_first_none _ _ He), (with_documents_same testimonialsCollection).
  - done.
Qed.

Lemma get_handler_changes_nothing env req w :
  is_GET (route req) = true → db (handler env req w).2 = db w.
Proof.
  unfold handler. destruct (route req); try discriminate; intros _.
  - apply get_properties_keeps.
  - apply get_properties_id_keeps.
  - apply get_my_properties_keeps.
  - apply get_my_property_ratings_keeps.
  - apply get_my_ratings_keeps.
  - apply get_properties_id_reviews_keeps.
  - apply get_testimonials_keeps.
  - apply get_testimonials_user_keeps.
  - done.
Qed.

(** X1: the database changes only when a POST, PUT or DELETE is answered
    200 or 201.  A GET request never changes it, and neither does any
    request answered with a status of 400 or above (400, 401, 404, 500). *)
Theorem database_changes_only_on_success env req w :
  is_GET (route req) = true ∨ 400 ≤ status (app env req w).1 →
  db (app env req w).2 = db w.
Proof.
  destruct (app_cases env req w) as [[_ ->] | ->]; [done|].
  intros [H | H];
    [by apply get_handler_changes_nothing | by apply failed_handler_changes_nothing].
Qed.

Lemma database_changes_only_on_success_witness :
  db (app sample_env (sample_request (DELETE_reviews_id other_id) ∅) sample_world).2 =
    db sample_world.
Proof.
  apply database_changes_only_on_success. right. by vm_compute.
Defined.

(** ** The guard, once more *)

Lemma handler_reads_route_and_body env req req' :
  route req = route req' → body req = body req' →
  handler env req = handler env req'.
Proof.
  destruct req as [r a b u], req' as [r' a' b' u']. simpl. intros <- <-.
  unfold handler. simpl. by destruct r.
Qed.

(** X2: the guard checks that the token is valid and nothing else.  No
    handler reads [req.user]: two requests for the same route with the same
    body, each carrying some token the verifier accepts, get the same
    answer and have the same effect, whoever the tokens identify and
    whatever email or identifier the path names. *)
Theorem any_valid_token_will_do env req req' w :
  route req = route req' → body req = body req' →
  authenticated env req → authenticated env req' →
  app env req w = app env req' w.
Proof.
  intros Hr Hb Ha Ha'.
  rewrite !app_passes_guard by (by intros _).
  by rewrite (handler_reads_route_and_body env req req').
Qed.

(** X3: what the guard takes for the token.  From a header
    [Bearer <token>] whose token has no space it takes the token.  A header
    without a space in it (a bare token, say) has no ["Bearer "] to split
    at, and the request is answered 401 "No token provided" without the
    verifier being asked. *)
Theorem guard_reads_the_bearer_token env req w :
  protected (route req) = true →
  (∀ h, authorization req = Some h →
        " "%char ∉ String.list_ascii_of_string h →
        app env req w =
          (json 401 (object [("message", VStr "No token provided")]), w)) ∧
  (∀ token decodedToken,
     authorization req = Some ("Bearer " +:+ token) →
     " "%char ∉ String.list_ascii_of_string token → token ≠ "" →
     verifyIdToken env token = Ok decodedToken →
     app env req w = handler env req w).
Proof.
  intros Hp. split.
  - intros h Hh Hs. unfold app. rewrite Hp. apply verifyToken_no_token. left.
    rewrite Hh. unfold bearer, split. simpl. by rewrite split_go_no_space.
  - intros token decodedToken Hh Hs Hne Hv. apply app_passes_guard. intros _.
    exists token, decodedToken. split_and!; [|done..].
    rewrite Hh. by apply bearer_header.
Qed.

Lemma any_valid_token_will_do_witness :
  app second_env (mkRequest (DELETE_properties_id other_id) (Some "Bearer good") ∅ None)
    sample_world =
  app second_env (mkRequest (DELETE_properties_id other_id) (Some "Bearer fine") ∅ None)
    sample_world.
Proof.
  apply any_valid_token_will_do; [done|done| |].
  - exists "good", (VObj (object [("email", VStr "owner@example.com")])). done.
  - exists "fine", (VObj (object [("email", VStr "stranger@example.com")])). done.
Defined.

Lemma guard_reads_the_bearer_token_witness :
  app sample_env (mkRequest POST_properties (Some "good") ∅ None) empty_world =
    (json 401 (object [("message", VStr "No token provided")]), empty_world).
Proof.
  destruct (guard_reads_the_bearer_token sample_env
              (mkRequest POST_properties (Some "good") ∅ None) empty_world eq_refl)
    as [H _].
  apply (H "good" eq_refl). simpl. rewrite !elem_of_cons, elem_of_nil.
  intros [?|[?|[?|[?|[]]]]]; discriminate.
Defined.

(** ** Posting and fetching properties *)

Lemma id_is_new_existsb c (d : obj) db :
  id_is_new c d db →
  existsb (λ x, bool_decide (x !! "_id" = d !! "_id")) (documents c db) = false.
Proof.
  intros Hnew. destruct (existsb _ _) eqn:He; [|done].
  apply existsb_elem_of in He as (x & Hx & Heq%bool_decide_eq_true).
  destruct Hnew. rewrite <- Heq. by apply list_elem_of_fmap_2.
Qed.

Lemma not_stored_id_is_new env c (d : obj) db :
  truthy_id (d !! "_id") = false →
  ¬ stored c (generated env) db →
  id_is_new c (inserted env d) db.
Proof.
  intros Ht Hns. unfold id_is_new, inserted. rewrite Ht, lookup_insert_eq.
  intros (x & Hx & Hin)%list_elem_of_fmap. apply Hns. by exists x.
Qed.

Lemma find_snoc (p : obj → bool) l d :
  existsb p l = false → p d = true → List.find p (l ++ [d]) = Some d.
Proof.
  induction l as [|x l IH]; simpl; [by intros _ ->|].
  destruct (p x); [done|]. simpl. apply IH.
Qed.

Lemma printable_isValid oid :
  printable oid →
  ObjectId.isValid (ObjectId.toString oid) = true ∧
  ObjectId.make (ObjectId.lower (ObjectId.toString oid)) = oid.
Proof.
  unfold printable, ObjectId.new.
  destruct (ObjectId.isValid _); [|done]. by intros [= ->].
Qed.

Lemma get_properties_id_found id w :
  status (get_properties_id id w).1 = 200 →
  ∃ d, (get_properties_id id w).1 = send (VObj d) ∧
       hex24 id ∧ d ∈ properties (db w) ∧
       has_id (ObjectId.make (ObjectId.lower id)) d.
Proof.
  destruct (ObjectId.isValid id) eqn:Hid.
  - rewrite (get_properties_id_run _ _ Hid). cbn zeta.
    destruct (List.find _ _) as [d|] eqn:Hf; [|done]. intros _.
    apply find_some in Hf as [Hin Hm]. exists d.
    split_and!; [done|by apply isValid_spec|by apply list_elem_of_In|by apply matches_by_id].
  - unfold get_properties_id, try_catch. by rewrite Hid.
Qed.

(** X4: when GET /properties/:id answers 200, the identifier is well
    formed and the body is a stored property whose [_id] is that
    identifier. *)
Theorem fetched_property_carries_the_identifier env req w id :
  route req = GET_properties_id id →
  status (app env req w).1 = 200 →
  ∃ d, (app env req w).1 = send (VObj d) ∧
       hex24 id ∧ d ∈ properties (db w) ∧
       has_id (ObjectId.make (ObjectId.lower id)) d.
Proof.
  intros Hr. unfold app, handler. rewrite Hr. cbn [protected].
  apply get_properties_id_found.
Qed.

Lemma fetched_property_carries_the_identifier_witness :
  ∃ d, (app sample_env (mkRequest (GET_properties_id other_id) None ∅ None)
          sample_world).1 = send (VObj d) ∧
       hex24 other_id ∧ d ∈ properties (db sample_world) ∧
       has_id (ObjectId.make (ObjectId.lower other_id)) d.
Proof.
  apply (fetched_property_carries_the_identifier sample_env
           (mkRequest (GET_properties_id other_id) None ∅ None) sample_world other_id
           eq_refl).
  vm_compute. reflexivity.
Defined.

(** X5: a property posted without an [_id] is stored as the body plus the
    generated identifier, the answer is 201 with that identifier, and the
    property can be read back: GET /properties/<identifier> answers 200
    with the stored document, and GET /my-properties/<email> lists it when
    the body's [posted_by.email] is that email.  The identifier must be
    unused in the collection, as a generated one is. *)
Theorem posted_property_can_be_fetched env req w :
  route req = POST_properties →
  passes_guard env req →
  truthy_id (body req !! "_id") = false →
  printable (generated env) →
  ¬ stored propertiesCollection (generated env) (db w) →
  let d := <["_id" := VOid (generated env)]> (body req) in
  let w' := (app env req w).2 in
  (app env req w).1 =
    json 201 (object [("message", VStr "Property created successfully");
                      ("insertedId", VOid (generated env))]) ∧
  db w' = mkDb (properties (db w) ++ [d]) (reviews (db w)) (testimonials (db w)) ∧
  (∀ env' req',
     route req' = GET_properties_id (ObjectId.toString (generated env)) →
     (app env' req' w').1 = send (VObj d)) ∧
  (∀ env' req' email,
     route req' = GET_my_properties email → passes_guard env' req' →
     posted_by email (body req) →
     ∃ l, (app env' req' w').1 = send (VArr (VObj <$> l)) ∧ d ∈ l).
Proof.
  intros Hr Hg Ht Hp Hns d w'.
  pose proof (not_stored_id_is_new env propertiesCollection _ _ Ht Hns) as Hnew.
  pose proof (id_is_new_existsb _ _ _ Hnew) as He.
  assert (Hd : inserted env (body req) = d) by (unfold inserted; by rewrite Ht).
  assert (Happ : app env req w =
    (json 201 (object [("message", VStr "Property created successfully");
                       ("insertedId", VOid (generated env))]),
     mkWorld (mkDb (properties (db w) ++ [d]) (reviews (db w)) (testimonials (db w)))
             (calls w ++ [call_insertOne propertiesCollection (body req)]))).
  { rewrite (app_passes_guard _ _ _ Hg). unfold handler. rewrite Hr.
    rewrite post_properties_run. cbn zeta. cbn [documents] in He. rewrite He, Hd.
    unfold d at 1. by rewrite lookup_insert_eq. }
  assert (Hw' : db w' = mkDb (properties (db w) ++ [d]) (reviews (db w)) (testimonials (db w)))
    by (unfold w'; by rewrite Happ).
  split_and!; [by rewrite Happ|done| |].
  - intros env' req' Hr'. unfold app, handler. rewrite Hr'. cbn [protected].
    destruct (printable_isValid _ Hp) as [Hv Hoid].
    rewrite (get_properties_id_run _ _ Hv). cbn zeta. rewrite Hoid, Hw'. cbn [properties fst].
    rewrite (find_snoc _ _ d); [done| |].
    + by apply (existsb_by_id_false propertiesCollection).
    + apply matches_by_id. apply lookup_insert_eq.
  - intros env' req' email Hr' Hg' Hpost.
    rewrite (app_passes_guard _ _ _ Hg'). unfold handler. rewrite Hr'.
    unfold get_my_properties, try_catch. rewrite bind_run, find_run. cbv iota beta.
    eexists. split; [done|]. rewrite Hw'. cbn [documents properties].
    apply elem_of_List_filter. split; [apply elem_of_app; right; apply list_elem_of_here|].
    apply holds_posted_by. unfold posted_by in *. cbn [resolve] in *.
    unfold d. by rewrite lookup_insert_ne.
Qed.

Lemma nothing_stored_in_empty_world c oid : ¬ stored c oid (db empty_world).
Proof. intros (d & Hd & _). destruct c; by apply elem_of_nil in Hd. Qed.

Lemma posted_property_can_be_fetched_witness :
  (app sample_env
     (mkRequest (GET_properties_id other_id) None ∅ None)
     (app sample_env (sample_request POST_properties villa) empty_world).2).1 =
  send (VObj (<["_id" := VOid (ObjectId.make other_id)]> villa)).
Proof.
  destruct (posted_property_can_be_fetched sample_env
              (sample_request POST_properties villa) empty_world eq_refl
              (sample_passes_guard _ _) eq_refl eq_refl
              (nothing_stored_in_empty_world _ _)) as (_ & _ & H & _).
  by apply H.
Defined.

(** X6: POST /properties stores the body as it is.  A body that carries an
    [_id] of its own is stored under it (given no property has it yet) and
    the answer echoes it as [insertedId]; unless that [_id] is an
    [ObjectId], which a JSON body cannot hold, no GET /properties/:id ever
    returns the stored document, since the route looks identifiers up as
    [ObjectId]s. *)
Theorem client_supplied_id_is_kept env req w v :
  route req = POST_properties →
  passes_guard env req →
  body req !! "_id" = Some v → v ≠ VNull →
  id_is_new propertiesCollection (body req) (db w) →
  let w' := (app env req w).2 in
  (app env req w).1 =
    json 201 (object [("message", VStr "Property created successfully");
                      ("insertedId", v)]) ∧
  db w' = mkDb (properties (db w) ++ [body req]) (reviews (db w)) (testimonials (db w)) ∧
  ((∀ oid, v ≠ VOid oid) →
   ∀ env' req' id,
     route req' = GET_properties_id id →
     (app env' req' w').1 ≠ send (VObj (body req))).
Proof.
  intros Hr Hg Hv Hnn Hnew w'.
  assert (Hd : inserted env (body req) = body req).
  { unfold inserted. rewrite Hv. by destruct v. }
  pose proof (id_is_new_existsb _ _ _ Hnew) as He. cbn [documents] in He.
  assert (Happ : app env req w =
    (json 201 (object [("message", VStr "Property created successfully");
                       ("insertedId", v)]),
     mkWorld (mkDb (properties (db w) ++ [body req]) (reviews (db w))
                (testimonials (db w)))
             (calls w ++ [call_insertOne propertiesCollection (body req)]))).
  { rewrite (app_passes_guard _ _ _ Hg). unfold handler. rewrite Hr.
    rewrite post_properties_run. cbn zeta. by rewrite Hd, He, Hv. }
  split_and!; [by rewrite Happ|by unfold w'; rewrite Happ|].
  intros Hnoid env' req' id Hr' Heq.
  unfold app, handler in Heq. rewrite Hr' in Heq. cbn [protected] in Heq.
  destruct (get_properties_id_found id w') as (d & Hd' & _ & _ & Hid).
  { by rewrite Heq. }
  rewrite Heq in Hd'. injection Hd' as <-.
  unfold has_id in Hid. rewrite Hv in Hid. injection Hid as ->. by eapply Hnoid.
Qed.

Lemma client_supplied_id_is_kept_witness :
  properties
    (db (app sample_env (sample_request POST_properties villa_with_id) empty_world).2) =
    [villa_with_id] ∧
  (app sample_env (mkRequest (GET_properties_id sample_id) None ∅ None)
     (app sample_env (sample_request POST_properties villa_with_id) empty_world).2).1 ≠
    send (VObj villa_with_id).
Proof.
  destruct (client_supplied_id_is_kept sample_env
              (sample_request POST_properties villa_with_id) empty_world
              (VStr sample_id) eq_refl (sample_passes_guard _ _))
    as (_ & Hdb & Hget).
  - by vm_compute.
  - discriminate.
  - intros Hin. by apply elem_of_nil in Hin.
  - split; [by rewrite Hdb|].
    apply (λ H, Hget H sample_env
                  (mkRequest (GET_properties_id sample_id) None ∅ None)
                  sample_id eq_refl).
    intros oid. discriminate.
Defined.

(** ** Testimonials *)

Lemma matches_email email d :
  matches [Equals ["email"] email] d = true ↔ serialize (d !! "email") = email.
Proof.
  unfold matches, forallb, holds.
  by rewrite resolve_field, andb_true_r, bool_decide_eq_true.
Qed.

Lemma inserted_lookup_ne env (d : obj) k :
  k ≠ "_id" → inserted env d !! k = d !! k.
Proof.
  intros Hk. unfold inserted. destruct (truthy_id _); [done|].
  by rewrite lookup_insert_ne.
Qed.

Lemma testimonial_set_lookup env (body : obj) k :
  (<["updated_at" := VStr (toISOString env)]> (delete "_id" body)) !! k =
    if decide (k = "updated_at") then Some (VStr (toISOString env))
    else if decide (k = "_id") then None
    else body !! k.
Proof.
  repeat case_decide; subst.
  - apply lookup_insert_eq.
  - rewrite lookup_insert_ne by done. apply lookup_delete_eq.
  - by rewrite lookup_insert_ne, lookup_delete_ne.
Qed.




Lemma no_match_pre oid (pre : list obj) :
  Forall (λ x, ¬ has_id oid x) pre →
  Forall (λ x, matches (by_id oid) x = false) pre.
Proof.
  intros H. eapply Forall_impl; [exact H|]. intros x Hx.
  destruct (matches (by_id oid) x) eqn:Hm; [|done]. by apply matches_by_id in Hm.
Qed.

(** The first document carrying [oid], and what [updateOne] and [deleteOne]
    make of the collection. *)
Lemma first_match_by_id oid pre d post :
  Forall (λ x, ¬ has_id oid x) pre → has_id oid d →
  existsb (matches (by_id oid)) (pre ++ d :: post) = true ∧
  (∀ f, update_first (matches (by_id oid)) f (pre ++ d :: post) = pre ++ f d :: post) ∧
  delete_first (matches (by_id oid)) (pre ++ d :: post) = pre ++ post.
Proof.
  intros Hpre%no_match_pre Hd%matches_by_id. split_and!.
  - apply existsb_elem_of. exists d. split; [|done].
    apply elem_of_app. right. apply list_elem_of_here.
  - intros f. by apply update_first_app.
  - by apply delete_first_app.
Qed.

(** X8: PUT /testimonials/:id does not look at the other testimonials.  If
    the body names an [email] that another testimonial already has, the
    answer is still 200 and afterwards two testimonials carry that email. *)
Theorem put_testimonial_can_duplicate_an_email env req w id email pre d post x :
  route req = PUT_testimonials_id id →
  passes_guard env req →
  hex24 id →
  testimonials (db w) = pre ++ d :: post →
  Forall (λ y, ¬ has_id (ObjectId.make (ObjectId.lower id)) y) pre →
  has_id (ObjectId.make (ObjectId.lower id)) d →
  x ∈ pre ++ post → x !! "email" = Some email →
  body req !! "email" = Some email →
  status (app env req w).1 = 200 ∧
  (∃ d', testimonials (db (app env req w).2) = pre ++ d' :: post ∧
         d' !! "email" = Some email) ∧
  ¬ one_testimonial_per_email (db (app env req w).2).
Proof.
  intros Hr Hg Hid%isValid_spec Hl Hpre Hd Hx He Hb.
  destruct (first_match_by_id _ _ _ post Hpre Hd) as (Hex & Hup & _).
  rewrite (app_passes_guard _ _ _ Hg). unfold handler. rewrite Hr.
  rewrite (put_testimonials_id_run _ _ _ _ Hid). cbn zeta.
  rewrite Hl, Hex, Hup. cbn [fst snd db testimonials with_documents].
  set (d' := _ ∪ d).
  assert (Hd' : d' !! "email" = Some email).
  { apply lookup_union_Some_l. rewrite testimonial_set_lookup.
    by repeat case_decide. }
  split_and!; [done|by exists d'|].
  unfold one_testimonial_per_email. cbn [testimonials].
  rewrite fmap_app, fmap_cons, NoDup_app, NoDup_cons.
  intros (_ & Hpd & Hdp & _).
  apply elem_of_app in Hx as [Hx | Hx].
  - apply (Hpd (x !! "email")); [by apply list_elem_of_fmap_2|].
    rewrite He, <- Hd'. apply list_elem_of_here.
  - apply Hdp. rewrite Hd', <- He. by apply list_elem_of_fmap_2.
Qed.

Lemma put_testimonial_can_duplicate_an_email_witness :
  ¬ one_testimonial_per_email
      (db (app sample_env
             (sample_request (PUT_testimonials_id other_id)
                (object [("email", VStr "guest@example.com")]))
             testimonial_world).2).
Proof.
  apply (put_testimonial_can_duplicate_an_email sample_env
           (sample_request (PUT_testimonials_id other_id)
              (object [("email", VStr "guest@example.com")]))
           testimonial_world other_id
           (VStr "guest@example.com") [sample_testimonial] other_testimonial []
           sample_testimonial eq_refl (sample_passes_guard _ _) hex24_other_id eq_refl).
  - constructor; [|constructor]. vm_compute. discriminate.
  - vm_compute. reflexivity.
  - apply list_elem_of_here.
  - vm_compute. reflexivity.
  - vm_compute. reflexivity.
Defined.


Lemma sample_testimonial_stored :
  stored testimonialsCollection (ObjectId.make (ObjectId.lower sample_id))
    (db testimonial_world).
Proof. exists sample_testimonial. split; [apply list_elem_of_here|by vm_compute]. Qed.


(** X10: for a well-formed identifier, DELETE /testimonials/:id answers 404
    exactly when no testimonial carries it and 200 exactly when one does;
    it then removes that one testimonial and leaves properties and reviews
    alone, and, identifiers being unique, the same DELETE repeated answers
    404. *)
Theorem delete_testimonial_removes_one env req w id :
  hex24 id →
  route req = DELETE_testimonials_id id →
  passes_guard env req →
  let oid := ObjectId.make (ObjectId.lower id) in
  (status (app env req w).1 = 404 ↔ ¬ stored testimonialsCollection oid (db w)) ∧
  (status (app env req w).1 = 200 ↔ stored testimonialsCollection oid (db w)) ∧
  (stored testimonialsCollection oid (db w) →
   (∃ pre d post,
      testimonials (db w) = pre ++ d :: post ∧ has_id oid d ∧
      Forall (λ x, ¬ has_id oid x) pre ∧
      db (app env req w).2 =
        mkDb (properties (db w)) (reviews (db w)) (pre ++ post)) ∧
   (unique_ids (testimonials (db w)) →
    status (app env req (app env req w).2).1 = 404)).
Proof.
  intros Hid%isValid_spec Hroute Hg oid.
  assert (Happ : ∀ w', app env req w' = delete_testimonials_id id w').
  { intros w'. rewrite (app_passes_guard _ _ _ Hg). unfold handler. by rewrite Hroute. }
  rewrite !Happ, !(delete_testimonials_id_run _ _ Hid). cbn zeta. fold oid.
  cbn [fst snd db].
  pose proof (existsb_by_id testimonialsCollection oid (db w)) as Hst.
  pose proof (existsb_by_id_false testimonialsCollection oid (db w)) as Hnst.
  cbn [documents] in Hst, Hnst. split_and!.
  - destruct (existsb _ (testimonials (db w))).
    + split; [done|]. intros H. destruct H. by apply Hst.
    + split; [by intros _; apply Hnst|done].
  - destruct (existsb _ (testimonials (db w))).
    + split; [by intros _; apply Hst|done].
    + split; [done|]. intros H. by apply Hnst in H.
  - intros Hs%Hst. split.
    + apply first_match_split in Hs as (pre & d & post & Hl & Hpre & Hm).
      exists pre, d, post. split_and!; [done|by apply matches_by_id|by apply not_has_id_pre|].
      by rewrite Hl, (delete_first_app _ _ _ _ Hpre Hm).
    + intros Hu. cbn [with_documents testimonials].
      destruct (existsb _ (delete_first _ _)) eqn:He; [|done].
      apply existsb_elem_of in He as (x & Hx & Hm).
      pose proof (delete_first_by_id oid _ Hu) as Hall.
      rewrite Forall_forall in Hall. destruct (Hall x Hx). by apply matches_by_id.
Qed.

Lemma delete_testimonial_removes_one_witness :
  status (app sample_env (sample_request (DELETE_testimonials_id sample_id) ∅)
            testimonial_world).1 = 200 ∧
  status (app sample_env (sample_request (DELETE_testimonials_id sample_id) ∅)
            (app sample_env (sample_request (DELETE_testimonials_id sample_id) ∅)
               testimonial_world).2).1 = 404.
Proof.
  destruct (delete_testimonial_removes_one sample_env
              (sample_request (DELETE_testimonials_id sample_id) ∅)
              testimonial_world sample_id hex24_sample_id eq_refl
              (sample_passes_guard _ _)) as (_ & H200 & Hdel).
  split.
  - apply H200, sample_testimonial_stored.
  - apply (Hdel sample_testimonial_stored).
    apply (bool_decide_unpack _). vm_compute. exact I.
Defined.

Lemma matches_email_string email d :
  matches [Equals ["email"] (VStr email)] d = true ↔ d !! "email" = Some (VStr email).
Proof.
  rewrite matches_email. destruct (d !! "email") as [v|]; simpl; naive_solver.
Qed.

Lemma get_testimonials_user_run email w :
  get_testimonials_user email w =
    let q := [Equals ["email"] (VStr email)] in
    (match List.find (matches q) (testimonials (db w)) with
     | Some d => send (VObj d)
     | None => json 404 (object [("error", VStr "No testimonial found")])
     end,
     mkWorld (db w) (calls w ++ [call_findOne testimonialsCollection q])).
Proof.
  unfold get_testimonials_user, try_catch. rewrite bind_run, findOne_run.
  cbv iota beta. cbn [documents]. by destruct (List.find _ _).
Qed.

(** X11: GET /testimonials/user/:email answers 404 exactly when no stored
    testimonial has that [email], and otherwise 200 with a stored
    testimonial whose [email] it is.  After a POST /testimonials answered
    201 the testimonial is found under its email: with no testimonial for
    the email before and an unused [_id], the POST stores the body (with
    the generated [_id] when it has none) and the GET returns that
    document. *)
Theorem testimonial_is_found_by_email env req w email :
  route req = GET_testimonials_user email →
  passes_guard env req →
  (status (app env req w).1 = 404 ↔
   ∀ d, d ∈ testimonials (db w) → d !! "email" ≠ Some (VStr email)) ∧
  (status (app env req w).1 = 200 →
   ∃ d, (app env req w).1 = send (VObj d) ∧
        d ∈ testimonials (db w) ∧ d !! "email" = Some (VStr email)) ∧
  (∀ env0 req0 w0,
     route req0 = POST_testimonials →
     passes_guard env0 req0 →
     body req0 !! "email" = Some (VStr email) →
     (∀ d, d ∈ testimonials (db w0) → d !! "email" ≠ Some (VStr email)) →
     id_is_new testimonialsCollection (inserted env0 (body req0)) (db w0) →
     w = (app env0 req0 w0).2 →
     status (app env0 req0 w0).1 = 201 ∧
     testimonials (db w) = testimonials (db w0) ++ [inserted env0 (body req0)] ∧
     (app env req w).1 = send (VObj (inserted env0 (body req0)))).
Proof.
  intros Hr Hg.
  assert (Happ : ∀ w', app env req w' = get_testimonials_user email w').
  { intros w'. rewrite (app_passes_guard _ _ _ Hg). unfold handler. by rewrite Hr. }
  rewrite Happ, get_testimonials_user_run. cbn zeta. cbn [fst].
  split_and!.
  - destruct (List.find _ _) as [d|] eqn:Hf.
    + split; [done|]. intros Hnone. apply find_some in Hf as [Hin Hm].
      destruct (Hnone d); [by apply list_elem_of_In|by apply matches_email_string].
    + split; [|done]. intros _ d Hd%list_elem_of_In He%matches_email_string.
      by rewrite (find_none _ _ Hf _ Hd) in He.
  - destruct (List.find _ _) as [d|] eqn:Hf; [|done]. intros _.
    apply find_some in Hf as [Hin Hm]. exists d.
    split_and!; [done|by apply list_elem_of_In|by apply matches_email_string].
  - intros env0 req0 w0 Hr0 Hg0 Hb Hnone Hnew ->.
    rewrite (app_passes_guard _ _ _ Hg0). unfold handler. rewrite Hr0.
    rewrite post_testimonials_run. cbn zeta. rewrite Hb.
    change (serialize (Some (VStr email))) with (VStr email).
    assert (existsb (matches [Equals ["email"] (VStr email)]) (testimonials (db w0)) = false)
      as He.
    { destruct (existsb _ _) eqn:He; [|done].
      apply existsb_elem_of in He as (x & Hx & Hm%matches_email_string).
      by destruct (Hnone x Hx). }
    destruct (List.find _ (testimonials (db w0))) as [x|] eqn:Hf.
    { apply find_some in Hf as [Hin Hm].
      assert (existsb (matches [Equals ["email"] (VStr email)]) (testimonials (db w0)) = true)
        by (apply existsb_exists; eauto). congruence. }
    pose proof (id_is_new_existsb _ _ _ Hnew) as Hid. cbn [documents] in Hid.
    rewrite Hid. cbn [fst snd db testimonials with_documents].
    split_and!; [done|done|].
    rewrite (find_snoc _ _ (inserted env0 (body req0))); [done|done|].
    apply matches_email_string. by rewrite inserted_lookup_ne.
Qed.

Lemma testimonial_is_found_by_email_witness :
  status (app sample_env (sample_request (GET_testimonials_user "nobody@example.com") ∅)
            testimonial_world).1 = 404 ∧
  ∃ d, (app sample_env (sample_request (GET_testimonials_user "guest@example.com") ∅)
          testimonial_world).1 = send (VObj d) ∧
       d !! "email" = Some (VStr "guest@example.com").
Proof.
  split.
  - apply (testimonial_is_found_by_email sample_env
             (sample_request (GET_testimonials_user "nobody@example.com") ∅)
             testimonial_world "nobody@example.com" eq_refl (sample_passes_guard _ _)).
    intros d Hd. change (d ∈ [sample_testimonial; other_testimonial]) in Hd.
    rewrite !elem_of_cons, elem_of_nil in Hd.
    destruct Hd as [-> | [-> | []]]; vm_compute; discriminate.
  - destruct (testimonial_is_found_by_email sample_env
                (sample_request (GET_testimonials_user "guest@example.com") ∅)
                testimonial_world "guest@example.com" eq_refl (sample_passes_guard _ _))
      as (_ & H & _).
    destruct H as (d & Hd & _ & He); [vm_compute; reflexivity|]. by exists d.
Defined.

(** ** Listing and creating reviews *)

Lemma by_field_desc_total env field :
  total_order env → Total (by_field_desc env field).
Proof. intros Ht x y. unfold by_field_desc. destruct (Ht (serialize (y !! field)) (serialize (x !! field))); auto. Qed.

Lemma get_properties_id_reviews_run env id w :
  get_properties_id_reviews env id w =
    let q := [Equals ["property_id"] (VStr id)] in
    (send (VArr (VObj <$> merge_sort (by_field_desc env "created_at")
                            (List.filter (matches q) (reviews (db w))))),
     mkWorld (db w) (calls w ++ [call_find reviewsCollection q (Some "created_at")])).
Proof.
  unfold get_properties_id_reviews, try_catch. by rewrite bind_run, find_sorted_run.
Qed.

Lemma get_testimonials_run env w :
  get_testimonials env w =
    (send (VArr (VObj <$> merge_sort (by_field_desc env "created_at")
                            (List.filter (matches []) (testimonials (db w))))),
     mkWorld (db w) (calls w ++ [call_find testimonialsCollection [] (Some "created_at")])).
Proof.
  unfold get_testimonials, try_catch. by rewrite bind_run, find_sorted_run.
Qed.

Lemma filter_matches_all (l : list obj) : List.filter (matches []) l = l.
Proof. induction l as [|d l IH]; [done|]. simpl. by rewrite IH. Qed.

Lemma matches_property_id id d :
  matches [Equals ["property_id"] (VStr id)] d = true ↔
  d !! "property_id" = Some (VStr id).
Proof.
  unfold matches, forallb, holds.
  rewrite resolve_field, andb_true_r, bool_decide_eq_true.
  destruct (d !! "property_id") as [v|]; simpl; naive_solver.
Qed.

(** X12: the two sorted listings.  GET /properties/:id/reviews takes any
    string for the identifier, well formed or not, and always answers 200:
    its entries are the stored reviews whose [property_id] is that string,
    each once.  GET /testimonials answers 200 with every stored
    testimonial.  Both make a single query, change nothing, and return the
    documents in descending order of [created_at] (in the store's order of
    values, when that order is total). *)
Theorem sorted_listings env req w :
  (∀ id, route req = GET_properties_id_reviews id →
     ∃ l, app env req w =
            (send (VArr (VObj <$> l)),
             mkWorld (db w)
               (calls w ++ [call_find reviewsCollection
                              [Equals ["property_id"] (VStr id)] (Some "created_at")])) ∧
          l ≡ₚ List.filter (matches [Equals ["property_id"] (VStr id)]) (reviews (db w)) ∧
          (∀ r, r ∈ l ↔ r ∈ reviews (db w) ∧ r !! "property_id" = Some (VStr id)) ∧
          (total_order env → Sorted (by_field_desc env "created_at") l)) ∧
  (route req = GET_testimonials →
     ∃ l, app env req w =
            (send (VArr (VObj <$> l)),
             mkWorld (db w)
               (calls w ++ [call_find testimonialsCollection [] (Some "created_at")])) ∧
          l ≡ₚ testimonials (db w) ∧
          (total_order env → Sorted (by_field_desc env "created_at") l)).
Proof.
  split.
  - intros id Hr. unfold app, handler. rewrite Hr. cbn [protected].
    rewrite get_properties_id_reviews_run. cbn zeta.
    eexists. split_and!; [done|apply merge_sort_Permutation| |].
    + intros r. rewrite merge_sort_Permutation, elem_of_List_filter.
      by rewrite matches_property_id.
    + intros Ht. pose proof (by_field_desc_total env "created_at" Ht).
      apply Sorted_merge_sort; apply _.
  - intros Hr. unfold app, handler. rewrite Hr. cbn [protected].
    rewrite get_testimonials_run.
    eexists. split_and!; [done| |].
    + by rewrite merge_sort_Permutation, filter_matches_all.
    + intros Ht. pose proof (by_field_desc_total env "created_at" Ht).
      apply Sorted_merge_sort; apply _.
Qed.

Lemma dated_env_total : total_order dated_env.
Proof.
  intros x y. destruct x, y; try (by left). apply String.leb_total.
Qed.

Example listing_is_newest_first :
  (app dated_env (mkRequest (GET_properties_id_reviews other_id) None ∅ None)
     two_reviews_world).1 =
  send (VArr [VObj later_review; VObj sample_review]).
Proof. vm_compute. reflexivity. Qed.

Lemma sorted_listings_witness :
  ∃ l, (app dated_env (mkRequest (GET_properties_id_reviews other_id) None ∅ None)
          two_reviews_world).1 = send (VArr (VObj <$> l)) ∧
       l ≡ₚ [sample_review; later_review] ∧
       Sorted (by_field_desc dated_env "created_at") l.
Proof.
  destruct (sorted_listings dated_env
              (mkRequest (GET_properties_id_reviews other_id) None ∅ None)
              two_reviews_world) as [H _].
  destruct (H other_id eq_refl) as (l & Happ & Hp & _ & Hs).
  exists l. split_and!; [by rewrite Happ|exact Hp|exact (Hs dated_env_total)].
Defined.

(** X13: a review that POST /properties/:id/reviews stores (answer 201) is
    listed by GET /properties/:id/reviews for the same identifier: the
    listing contains the stored document, which is the [reviewData] of the
    request with the generated [_id]. *)
Theorem posted_review_is_listed env req w id :
  route req = POST_properties_id_reviews id →
  passes_guard env req →
  status (app env req w).1 = 201 →
  let d := <["_id" := VOid (generated env)]> (reviewData env id (body req)) in
  reviews (db (app env req w).2) = reviews (db w) ++ [d] ∧
  ∀ env' req',
    route req' = GET_properties_id_reviews id →
    ∃ l, (app env' req' (app env req w).2).1 = send (VArr (VObj <$> l)) ∧ d ∈ l.
Proof.
  intros Hr Hg H201 d.
  rewrite (app_passes_guard _ _ _ Hg) in *. unfold handler in *. rewrite Hr in *.
  rewrite post_properties_id_reviews_run in *. cbn zeta in *.
  destruct (List.find _ _); [done|]. destruct (existsb _ _); [done|].
  cbn [snd db reviews with_documents]. split; [done|].
  intros env' req' Hr'. unfold app, handler. rewrite Hr'. cbn [protected].
  rewrite get_properties_id_reviews_run. cbn zeta. cbn [fst db reviews].
  eexists. split; [done|].
  rewrite merge_sort_Permutation, elem_of_List_filter. split.
  - apply elem_of_app. right. apply list_elem_of_here.
  - apply matches_property_id. unfold d.
    by rewrite lookup_insert_ne, reviewData_lookup.
Qed.

Lemma posted_review_is_listed_witness :
  ∃ l, (app sample_env
          (mkRequest (GET_properties_id_reviews other_id) None ∅ None)
          (app sample_env first_post sample_world).2).1 = send (VArr (VObj <$> l)) ∧
       <["_id" := VOid (ObjectId.make other_id)]>
         (reviewData sample_env other_id (body first_post)) ∈ l.
Proof.
  destruct (posted_review_is_listed sample_env first_post sample_world other_id
              eq_refl (sample_passes_guard _ _)) as [_ H].
  - vm_compute. reflexivity.
  - apply (H sample_env (mkRequest (GET_properties_id_reviews other_id) None ∅ None)
             eq_refl).
Defined.

(** X14: POST /properties/:id/reviews does not check the identifier.  With
    an identifier that is not well formed the review is stored all the
    same (the answer is 201 unless the reviewer already reviewed that
    identifier), and from then on GET /my-ratings/<reviewer_email> of its
    reviewer answers 500: the lookup of the property throws on the stored
    [property_id]. *)
Theorem unvalidated_review_breaks_my_ratings env req w id email :
  route req = POST_properties_id_reviews id →
  passes_guard env req →
  ¬ hex24 id →
  body req !! "reviewer_email" = Some (VStr email) →
  (status (app env req w).1 = 201 ↔
   (∀ d, d ∈ reviews (db w) →
         ¬ (d !! "property_id" = Some (VStr id) ∧
            d !! "reviewer_email" = Some (VStr email))) ∧
   ¬ stored reviewsCollection (generated env) (db w)) ∧
  (status (app env req w).1 = 201 →
   ∀ env' req',
     route req' = GET_my_ratings email →
     passes_guard env' req' →
     status (app env' req' (app env req w).2).1 = 500).
Proof.
  intros Hr Hg Hid%isValid_false Hb.
  rewrite (app_passes_guard _ _ _ Hg). unfold handler. rewrite Hr.
  rewrite post_properties_id_reviews_run. cbn zeta. rewrite Hb.
  change (serialize (Some (VStr email))) with (VStr email).
  assert (Hex : ∀ l : list obj,
    existsb (λ x, bool_decide (x !! "_id" = Some (VOid (generated env)))) l =
    existsb (matches (by_id (generated env))) l).
  { intros l. induction l as [|x l IH]; [done|]. cbn [existsb]. rewrite IH. f_equal.
    apply eq_true_iff_eq. by rewrite matches_by_id, bool_decide_eq_true. }
  rewrite Hex.
  change (reviews (db w)) with (documents reviewsCollection (db w)).
  split.
  - destruct (List.find _ _) as [x|] eqn:Hf.
    + split; [done|]. intros [Hnone _]. apply find_some in Hf as [Hin Hm].
      apply matches_review_pair in Hm as [Hp He].
      destruct (Hnone x); [by apply list_elem_of_In|].
      split.
      * by destruct (x !! "property_id") as [v|]; simpl in *; subst.
      * by destruct (x !! "reviewer_email") as [v|]; simpl in *; subst.
    + destruct (existsb _ _) eqn:He.
      * split; [done|]. intros [_ Hnst]. by apply existsb_by_id in He.
      * split; [|done]. intros _. split; [|by apply existsb_by_id_false].
        intros d Hd%list_elem_of_In [Hp Hem].
        pose proof (find_none _ _ Hf _ Hd) as Hm.
        assert (matches [Equals ["property_id"] (VStr id);
                         Equals ["reviewer_email"] (VStr email)] d = true) as Ht;
          [|congruence].
        apply matches_review_pair. by rewrite Hp, Hem.
  - destruct (List.find _ _); [done|]. destruct (existsb _ _); [done|].
    intros _ env' req' Hr' Hg'.
    rewrite (app_passes_guard _ _ _ Hg'). unfold handler. rewrite Hr'.
    cbn [snd].
    apply (my_ratings_malformed_property_id env' email _
             (<["_id" := VOid (generated env)]> (reviewData env id (body req))) id).
    + cbn [db reviews with_documents]. apply elem_of_app. right. apply list_elem_of_here.
    + by rewrite lookup_insert_ne, reviewData_lookup, Hb.
    + by rewrite lookup_insert_ne, reviewData_lookup.
    + done.
Qed.

Lemma unvalidated_review_breaks_my_ratings_witness :
  status (app sample_env stray_post empty_world).1 = 201 ∧
  status (app sample_env (sample_request (GET_my_ratings "visitor@example.com") ∅)
            (app sample_env stray_post empty_world).2).1 = 500.
Proof.
  destruct (unvalidated_review_breaks_my_ratings sample_env stray_post empty_world
              "not-an-id" "visitor@example.com" eq_refl (sample_passes_guard _ _))
    as [_ H].
  - apply isValid_false. vm_compute. reflexivity.
  - vm_compute. reflexivity.
  - assert (status (app sample_env stray_post empty_world).1 = 201) as H201
      by (vm_compute; reflexivity).
    split; [exact H201|].
    apply (H H201 sample_env
             (sample_request (GET_my_ratings "visitor@example.com") ∅) eq_refl
             (sample_passes_guard _ _)).
Defined.

(** ** One collection per request *)

Lemma handler_touches_one_collection env req w c :
  collection_of (route req) ≠ Some c →
  documents c (db (handler env req w).2) = documents c (db w).
Proof.
  unfold handler. destruct (route req) as
    [|id|email| |id|id|email|email|id|id|id|id| |email| |id|id|] eqn:Hr;
    cbn [collection_of]; intros Hc.
  - by rewrite get_properties_keeps.
  - by rewrite get_properties_id_keeps.
  - by rewrite get_my_properties_keeps.
  - rewrite post_properties_run. cbn zeta. destruct (existsb _ _); [done|].
    apply documents_with_documents_ne. congruence.
  - destruct (ObjectId.isValid id) eqn:Hid.
    + rewrite (put_properties_id_run _ _ _ Hid).
      apply documents_with_documents_ne. congruence.
    + by destruct (invalid_id_run env id req w Hid) as (-> & _).
  - destruct (ObjectId.isValid id) eqn:Hid.
    + rewrite (delete_properties_id_run _ _ Hid).
      apply documents_with_documents_ne. congruence.
    + by destruct (invalid_id_run env id req w Hid) as (_ & -> & _).
  - by rewrite get_my_property_ratings_keeps.
  - by rewrite get_my_ratings_keeps.
  - by rewrite get_properties_id_reviews_keeps.
  - rewrite post_properties_id_reviews_run. cbn zeta.
    destruct (List.find _ _); [done|]. destruct (existsb _ _); [done|].
    apply documents_with_documents_ne. congruence.
  - destruct (ObjectId.isValid id) eqn:Hid.
    + rewrite (put_reviews_id_run _ _ _ _ Hid).
      apply documents_with_documents_ne. congruence.
    + by destruct (invalid_id_run env id req w Hid) as (_ & _ & -> & _).
  - destruct (ObjectId.isValid id) eqn:Hid.
    + rewrite (delete_reviews_id_run _ _ Hid).
      apply documents_with_documents_ne. congruence.
    + by destruct (invalid_id_run env id req w Hid) as (_ & _ & _ & ->).
  - by rewrite get_testimonials_keeps.
  - by rewrite get_testimonials_user_keeps.
  - rewrite post_testimonials_run. cbn zeta.
    destruct (List.find _ _); [done|]. destruct (existsb _ _); [done|].
    apply documents_with_documents_ne. congruence.
  - destruct (ObjectId.isValid id) eqn:Hid.
    + rewrite (put_testimonials_id_run _ _ _ _ Hid).
      apply documents_with_documents_ne. congruence.
    + by destruct (invalid_testimonial_id_run env id req w Hid) as [-> _].
  - destruct (ObjectId.isValid id) eqn:Hid.
    + rewrite (delete_testimonials_id_run _ _ Hid).
      apply documents_with_documents_ne. congruence.
    + by destruct (invalid_testimonial_id_run env id req w Hid) as [_ ->].
  - done.
Qed.

(** X15: a request writes to one collection at most, the one its route is
    about: the property routes leave reviews and testimonials as they are,
    the review routes leave properties and testimonials, the testimonial
    routes leave properties and reviews, and a GET leaves all three.  In
    particular nothing is cascaded: deleting a property deletes none of its
    reviews. *)
Theorem request_writes_to_one_collection env req w c :
  collection_of (route req) ≠ Some c →
  documents c (db (app env req w).2) = documents c (db w).
Proof.
  intros Hc. destruct (app_cases env req w) as [[_ ->] | ->]; [done|].
  by apply handler_touches_one_collection.
Qed.

Lemma request_writes_to_one_collection_witness :
  reviews (db (app sample_env (sample_request (DELETE_properties_id other_id) ∅)
                 sample_world).2) = [sample_review].
Proof.
  apply (request_writes_to_one_collection sample_env
           (sample_request (DELETE_properties_id other_id) ∅) sample_world
           reviewsCollection).
  simpl. discriminate.
Defined.

(** ** Reviews of a deleted property *)

Lemma holds_reviewer_email email (rating : obj) :
  rating !! "reviewer_email" = Some (VStr email) →
  matches [Equals ["reviewer_email"] (VStr email)] rating = true.
Proof.
  intros He. unfold matches, forallb, holds. rewrite resolve_field, He, andb_true_r.
  by apply bool_decide_eq_true.
Qed.

(** X16: when DELETE /properties/:id answers 200 (identifiers being unique
    among the properties), no property carries the identifier any more
    while the reviews filed under it stay.  From then on such a review is
    still listed by GET /my-ratings/<reviewer_email> of its reviewer, and
    its entry shows "Unknown Property" and an empty image. *)
Theorem deleted_property_leaves_its_reviews env req w id :
  route req = DELETE_properties_id id →
  passes_guard env req →
  status (app env req w).1 = 200 →
  unique_ids (properties (db w)) →
  reviews (db (app env req w).2) = reviews (db w) ∧
  ¬ stored propertiesCollection (ObjectId.make (ObjectId.lower id))
      (db (app env req w).2) ∧
  ∀ env' req' email entries rating,
    route req' = GET_my_ratings email →
    passes_guard env' req' →
    payload (app env' req' (app env req w).2).1 = VArr entries →
    rating ∈ reviews (db w) →
    rating !! "reviewer_email" = Some (VStr email) →
    rating !! "property_id" = Some (VStr id) →
    ∃ e, VObj e ∈ entries ∧ extends e rating ∧
         e !! "property_name" = Some (VStr "Unknown Property") ∧
         e !! "property_image" = Some (VStr "").
Proof.
  intros Hr Hg H200 Hu.
  rewrite (app_passes_guard _ _ _ Hg) in *. unfold handler in *. rewrite Hr in *.
  destruct (ObjectId.isValid id) eqn:Hid; cycle 1.
  { unfold delete_properties_id, try_catch in H200. by rewrite Hid in H200. }
  rewrite (delete_properties_id_run _ _ Hid) in *. cbn zeta in *. cbn [snd db] in *.
  set (oid := ObjectId.make (ObjectId.lower id)) in *.
  assert (Hgone : ¬ stored propertiesCollection oid
                      (with_documents propertiesCollection
                         (delete_first (matches (by_id oid)) (properties (db w))) (db w))).
  { intros (d & Hd & Hhas). rewrite documents_with_documents in Hd.
    pose proof (delete_first_by_id oid _ Hu) as Hall.
    rewrite Forall_forall in Hall. by apply (Hall d). }
  split_and!; [done|done|].
  intros env' req' email entries rating Hr' Hg' Hp Hin He Hpid.
  rewrite (app_passes_guard _ _ _ Hg') in Hp. unfold handler in Hp. rewrite Hr' in Hp.
  apply my_ratings_entries in Hp as [_ Hall]. cbn [db reviews with_documents] in Hall.
  assert (rating ∈ List.filter (matches [Equals ["reviewer_email"] (VStr email)])
                     (reviews (db w))) as Hf.
  { apply elem_of_List_filter. split; [done|]. by apply holds_reviewer_email. }
  destruct (Forall2_elem_of_l _ _ _ _ Hall Hf)
    as (y & Hy & e & oid' & -> & Hext & Hnew & Hcase).
  rewrite Hpid in Hnew. cbn [new_ObjectId] in Hnew.
  rewrite (new_valid _ Hid) in Hnew. injection Hnew as <-. fold oid in Hcase.
  exists e. split; [done|]. split; [done|].
  destruct Hcase as [(p & Hpin & Hhas & _) | (_ & Hn & Hi)]; [|done].
  destruct Hgone. exists p. split; [|done]. by rewrite documents_with_documents.
Qed.

Lemma deleted_property_leaves_its_reviews_witness :
  ∃ e, extends e sample_review ∧
       e !! "property_name" = Some (VStr "Unknown Property") ∧
       e !! "property_image" = Some (VStr "").
Proof.
  destruct (deleted_property_leaves_its_reviews sample_env
              (sample_request (DELETE_properties_id other_id) ∅) sample_world other_id
              eq_refl (sample_passes_guard _ _)) as (_ & _ & H).
  - vm_compute. reflexivity.
  - apply NoDup_singleton.
  - assert (∃ entries,
      payload (app sample_env (sample_request (GET_my_ratings "guest@example.com") ∅)
                 (app sample_env (sample_request (DELETE_properties_id other_id) ∅)
                    sample_world).2).1 = VArr entries) as [entries Hp]
      by (eexists; vm_compute; reflexivity).
    destruct (H sample_env (sample_request (GET_my_ratings "guest@example.com") ∅)
                "guest@example.com" entries sample_review eq_refl
                (sample_passes_guard _ _) Hp) as (e & _ & He).
    + apply list_elem_of_here.
    + vm_compute. reflexivity.
    + vm_compute. reflexivity.
    + exists e. exact He.
Defined.

(** ** Listing properties *)

Lemma List_filter_sublist {A} (f : A → bool) l : List.filter f l `sublist_of` l.
Proof.
  induction l as [|x l IH]; simpl; [done|].
  destruct (f x); [by apply sublist_skip | by apply sublist_cons].
Qed.

(** X17: GET /properties answers 200 with every stored property, in the
    order of the store.  GET /my-properties/:email answers 200 with the
    part of that list whose [posted_by.email] is the email, in the same
    order; neither changes the database. *)
Theorem my_properties_is_part_of_properties env req req' w email :
  route req = GET_properties →
  route req' = GET_my_properties email →
  passes_guard env req' →
  ∃ mine,
    app env req w =
      (send (VArr (VObj <$> properties (db w))),
       mkWorld (db w) (calls w ++ [call_find propertiesCollection [] None])) ∧
    (app env req' w).1 = send (VArr (VObj <$> mine)) ∧
    db (app env req' w).2 = db w ∧
    mine `sublist_of` properties (db w) ∧
    ∀ p, p ∈ mine ↔ p ∈ properties (db w) ∧ posted_by email p.
Proof.
  intros Hr Hr' Hg'.
  exists (List.filter (matches [Equals ["posted_by"; "email"] (VStr email)])
            (properties (db w))).
  split_and!.
  - unfold app, handler. rewrite Hr. cbn [protected].
    unfold get_properties, try_catch. rewrite bind_run, find_run. cbv iota beta.
    cbn [documents]. by rewrite filter_matches_all.
  - rewrite (app_passes_guard _ _ _ Hg'). unfold handler. rewrite Hr'.
    unfold get_my_properties, try_catch. by rewrite bind_run, find_run.
  - rewrite (app_passes_guard _ _ _ Hg'). unfold handler. rewrite Hr'.
    apply get_my_properties_keeps.
  - apply List_filter_sublist.
  - intros p. by rewrite elem_of_List_filter, holds_posted_by.
Qed.

Lemma my_properties_is_part_of_properties_witness :
  ∃ mine,
    (app sample_env (sample_request (GET_my_properties "nobody@example.com") ∅)
       sample_world).1 = send (VArr (VObj <$> mine)) ∧
    mine `sublist_of` [sample_property].
Proof.
  destruct (my_properties_is_part_of_properties sample_env
              (mkRequest GET_properties None ∅ None)
              (sample_request (GET_my_properties "nobody@example.com") ∅)
              sample_world "nobody@example.com" eq_refl eq_refl
              (sample_passes_guard _ _)) as (mine & _ & H1 & _ & H2 & _).
  exists mine. split; [exact H1 | exact H2].
Defined.

(** ** The same PUT twice *)

(** The guard looks at the request only: either every world gets the
    handler's answer or every world gets the same refusal. *)
Lemma guard_cases env req :
  (∀ w, app env req w = handler env req w) ∨ (∃ r, ∀ w, app env req w = (r, w)).
Proof.
  unfold app. destruct (protected (route req)); [|by left].
  unfold verifyToken.
  destruct (bearer (authorization req)) as [[|c token]|];
    [right; by eexists| |right; by eexists].
  destruct (verifyIdToken env _);
    [left; intros w; by rewrite handler_with_user | right; by eexists].
Qed.

Lemma with_documents_twice c l l' db :
  with_documents c l (with_documents c l' db) = with_documents c l db.
Proof. by destruct c. Qed.

Lemma update_first_twice (p : obj → bool) f l :
  (∀ d, p d = true → p (f d) = true) → (∀ d, f (f d) = f d) →
  update_first p f (update_first p f l) = update_first p f l ∧
  existsb p (update_first p f l) = existsb p l.
Proof.
  intros Hp Hf. induction l as [|d l [IH1 IH2]]; [done|].
  cbn [update_first existsb]. destruct (p d) eqn:Hd; cbn [update_first existsb].
  - by rewrite (Hp _ Hd), Hf.
  - by rewrite Hd, IH1, IH2.
Qed.

Lemma merge_twice (set : obj) oid l :
  set !! "_id" = None →
  update_first (matches (by_id oid)) (λ d, set ∪ d)
    (update_first (matches (by_id oid)) (λ d, set ∪ d) l) =
  update_first (matches (by_id oid)) (λ d, set ∪ d) l ∧
  existsb (matches (by_id oid)) (update_first (matches (by_id oid)) (λ d, set ∪ d) l) =
  existsb (matches (by_id oid)) l.
Proof.
  intros Hset. apply update_first_twice.
  - intros d. rewrite !matches_by_id. unfold has_id. intros Hd.
    by rewrite lookup_union_r.
  - intros d. by rewrite (assoc_L (∪)), (idemp_L (∪)).
Qed.

(** X18: a PUT sent twice is a PUT sent once.  With the clock at the same
    instant, repeating a request to PUT /properties/:id, PUT /reviews/:id
    or PUT /testimonials/:id gives the same answer as the first time and
    leaves the database as the first one left it, whatever the answer
    was. *)
Theorem put_twice_is_put_once env req w :
  is_PUT (route req) = true →
  (app env req (app env req w).2).1 = (app env req w).1 ∧
  db (app env req (app env req w).2).2 = db (app env req w).2.
Proof.
  intros Hput.
  destruct (guard_cases env req) as [Hh | [r Hr]]; [|by rewrite !Hr].
  rewrite !Hh. unfold handler.
  destruct (route req) as
    [|id|email| |id|id|email|email|id|id|id|id| |email| |id|id|] eqn:Hroute;
    try discriminate Hput; destruct (ObjectId.isValid id) eqn:Hid.
  - rewrite !(put_properties_id_run _ _ _ Hid). cbn zeta. cbn [fst snd db].
    rewrite with_documents_twice.
    change (properties (with_documents propertiesCollection ?l _)) with l.
    destruct (merge_twice (delete "_id" (body req)) (ObjectId.make (ObjectId.lower id))
                (properties (db w)) (lookup_delete_eq _ _)) as [-> ->]. done.
  - unfold put_properties_id, try_catch. rewrite Hid. done.
  - rewrite !(put_reviews_id_run _ _ _ _ Hid). cbn zeta. cbn [fst snd db].
    rewrite with_documents_twice.
    change (reviews (with_documents reviewsCollection ?l _)) with l.
    match goal with |- context [update_first _ (λ d, ?set ∪ d) _] =>
      destruct (merge_twice set (ObjectId.make (ObjectId.lower id))
                  (reviews (db w)) eq_refl) as [-> ->] end.
    done.
  - unfold put_reviews_id, try_catch. rewrite Hid. done.
  - rewrite !(put_testimonials_id_run _ _ _ _ Hid). cbn zeta. cbn [fst snd db].
    rewrite with_documents_twice.
    change (testimonials (with_documents testimonialsCollection ?l _)) with l.
    match goal with |- context [update_first _ (λ d, ?set ∪ d) _] =>
      destruct (merge_twice set (ObjectId.make (ObjectId.lower id))
                  (testimonials (db w))) as [-> ->] end.
    + rewrite lookup_insert_ne by done. apply lookup_delete_eq.
    + done.
  - destruct (invalid_testimonial_id_run env id req w Hid) as [H _].
    rewrite H. cbn [snd]. by rewrite H.
Qed.

Lemma put_twice_is_put_once_witness :
  db (app sample_env
        (sample_request (PUT_properties_id other_id)
           (object [("property_name", VStr "Cottage")]))
        (app sample_env
           (sample_request (PUT_properties_id other_id)
              (object [("property_name", VStr "Cottage")]))
           sample_world).2).2 =
  db (app sample_env
        (sample_request (PUT_properties_id other_id)
           (object [("property_name", VStr "Cottage")]))
        sample_world).2.
Proof.
  apply (put_twice_is_put_once sample_env
           (sample_request (PUT_properties_id other_id)
              (object [("property_name", VStr "Cottage")]))
           sample_world eq_refl).
Defined.

(** ** Posting a review and deleting it *)

Lemma no_id_Forall oid (l : list obj) :
  existsb (λ x, bool_decide (x !! "_id" = Some (VOid oid))) l = false →
  Forall (λ x, ¬ has_id oid x) l.
Proof.
  induction l as [|x l IH]; [done|]. cbn [existsb].
  intros [Hx Hl]%orb_false_iff. constructor; [|by apply IH].
  by apply bool_decide_eq_false in Hx.
Qed.

(** X19: a review that POST /properties/:id/reviews stored (answer 201) is
    removed again by DELETE /reviews/<its generated identifier>: the DELETE
    answers 200 and the database is what it was before the POST, so the
    reviewer may review the property anew. *)
Theorem posted_review_can_be_deleted env req w id env' req' :
  route req = POST_properties_id_reviews id →
  passes_guard env req →
  status (app env req w).1 = 201 →
  printable (generated env) →
  route req' = DELETE_reviews_id (ObjectId.toString (generated env)) →
  passes_guard env' req' →
  status (app env' req' (app env req w).2).1 = 200 ∧
  db (app env' req' (app env req w).2).2 = db w ∧
  status (app env req (app env' req' (app env req w).2).2).1 = 201.
Proof.
  intros Hr Hg H201 [Hvalid Hoid]%printable_isValid Hr' Hg'.
  assert (List.find
            (matches [Equals ["property_id"] (VStr id);
                      Equals ["reviewer_email"]
                        (serialize (body req !! "reviewer_email"))])
            (reviews (db w)) = None ∧
          existsb (λ x, bool_decide (x !! "_id" = Some (VOid (generated env))))
            (reviews (db w)) = false) as [Hfind He].
  { rewrite (app_passes_guard _ _ _ Hg) in H201. unfold handler in H201.
    rewrite Hr, post_properties_id_reviews_run in H201. cbn zeta in H201.
    destruct (List.find _ _); [done|]. by destruct (existsb _ _). }
  set (w2 := (app env' req' (app env req w).2).2).
  assert (status (app env' req' (app env req w).2).1 = 200 ∧ db w2 = db w) as [H200 Hdb].
  { unfold w2. rewrite (app_passes_guard _ _ _ Hg'), (app_passes_guard _ _ _ Hg).
    unfold handler. rewrite Hr, Hr'.
    rewrite (delete_reviews_id_run _ _ Hvalid). cbn zeta. rewrite Hoid.
    rewrite post_properties_id_reviews_run. cbn zeta. rewrite Hfind, He.
    cbn [fst snd db].
    change (reviews (with_documents reviewsCollection ?l _)) with l.
    destruct (first_match_by_id (generated env) (reviews (db w))
                (<["_id" := VOid (generated env)]> (reviewData env id (body req))) [])
      as (Hex & _ & Hdel).
    { by apply no_id_Forall. }
    { apply lookup_insert_eq. }
    pose proof (with_documents_same reviewsCollection (db w)) as Hsame.
    cbn [documents] in Hsame.
    by rewrite Hex, Hdel, app_nil_r, with_documents_twice, Hsame. }
  split_and!; [done..|]. clearbody w2.
  rewrite (app_passes_guard _ _ _ Hg). unfold handler.
  rewrite Hr, post_properties_id_reviews_run. cbn zeta.
  by rewrite Hdb, Hfind, He.
Qed.

Lemma posted_review_can_be_deleted_witness :
  db (app sample_env (sample_request (DELETE_reviews_id other_id) ∅)
        (app sample_env first_post empty_world).2).2 = db empty_world.
Proof.
  destruct (posted_review_can_be_deleted sample_env first_post empty_world other_id
              sample_env (sample_request (DELETE_reviews_id other_id) ∅)
              eq_refl (sample_passes_guard _ _)) as (_ & H & _).
  - vm_compute. reflexivity.
  - vm_compute. reflexivity.
  - reflexivity.
  - apply sample_passes_guard.
  - exact H.
Defined.
